(** * snow-harvester: the harvest evaluation-and-execution pipeline

    A shallow embedding of [src/main/Main.js] and the properties of its
    pipeline: strategy discovery, candidate building, the three evaluation
    stages, the profitability filter, the executor and the reporter.

    Modelling conventions.
    - bn.js big numbers and the JavaScript numbers used for gas and nonces
      are [N]; [web3.utils.toBN] of a chain value is the identity.
    - A JavaScript exception or rejected promise is [Throw e]; a function
      that may throw or that performs I/O lives in the monad [M], which
      pairs the result with the trace of observable effects (chain reads,
      transaction submissions, console lines, timers).
    - The chain is one snapshot ([Web3]) for the span of a computation:
      a read-only call is answered as a function of its arguments.  The
      one exception is [performanceTreasuryFee], which the source calls
      twice in a row for one record and stores in two fields: the first
      and the second call have answers of their own.  Reads issued
      concurrently by [Promise.all] are traced item by item, in list
      order.
    - The pipeline's record is a JavaScript object that grows by spread
      ([{...harvest, tx: ...}]): the fields of the first stage are always
      there, the fields later stages add are [option]al, [None] standing
      for [undefined]. *)

From Stdlib Require Import Arith NArith Bool String Ascii List Lia.
Import ListNotations.

Local Open Scope N_scope.

(** ** Values *)

Definition Address := string.
Bind Scope string_scope with Address.

Inductive Abi := CONTROLLER_ABI | SNOWGLOBE_ABI | STRATEGY_ABI | PANGOLIN_POOL_ABI.

(** [new web3.eth.Contract(abi, address)] *)
Record Contract := mkContract { abi : Abi; _address : Address }.

(** [strategy.methods.harvest()]: an unsent call bound to a contract. *)
Inductive Tx := HarvestCall (target : Contract).

(** What [tx.send] resolves to. *)
Record Receipt := mkReceipt { to : Address; transactionHash : string }.

Inductive Error :=
| RpcError (msg : string)      (* a web3 call that rejected *)
| DivisionByZero               (* bn.js: division by a zero big number *)
| TypeError (msg : string).    (* a property of undefined, toBN(undefined) *)

Inductive Result (A : Type) :=
| Ok (a : A)
| Throw (e : Error).
Arguments Ok {A} a.
Arguments Throw {A} e.

(** One entry of [contractCache] in [initContracts]. *)
Record StrategyTarget := mkTarget {
  globes : list Contract;
  strategies : list Contract
}.

(** The pipeline's record. *)
Record Harvest := mkHarvest {
  strategy : Contract;
  name : option string;
  harvestable : N;
  treasuryFee : N;
  treasuryMax : N;
  tx : option Tx;
  gainWAVAX : option N;
  gainUSDT : option N;
  gas : option N;
  gasPrice : option N
}.

(** An element of what [Promise.allSettled] resolves to.  [value] is
    [undefined] when the settled function returned nothing. *)
Inductive Settled :=
| Fulfilled (value : option Receipt)
| Rejected (reason : Error).

Definition value_of (r : Settled) : option Receipt :=
  match r with Fulfilled v => v | Rejected _ => None end.

Definition reason_of (r : Settled) : option Error :=
  match r with Fulfilled _ => None | Rejected e => Some e end.

(** ** Configuration and chain *)

(** [config/Config.js] is not among the sources: its exports are fields. *)
Record Config := mkConfig {
  TEST_MODE : bool;
  WANTS : list Address;
  CONTROLLER : Address;
  WALLET_ADDRESS : Address;
  INTERVAL : N;
  STRATEGY_NAME : string -> option string
}.

(** The [web3] client over one chain snapshot.
    [call_performanceTreasuryFee s k] answers the call number [k] (0 for
    the first, 1 for the second) of [performanceTreasuryFee()] on the
    strategy at [s] while its record is built. *)
Record Web3 := mkWeb3 {
  isAddress : string -> bool;
  call_globes : Address -> Address -> Result string;
  call_strategies : Address -> Address -> Result string;
  call_getHarvestable : Address -> Result N;
  call_performanceTreasuryFee : Address -> nat -> Result N;
  call_getReserves : Address -> Result (N * N);
  estimateGas : Tx -> Address -> Result N;
  getGasPrice : Result N;
  getTransactionCount : Address -> Result N;
  send : Tx -> Address -> option N -> option N -> N -> Result Receipt
}.

(** ** Observable effects *)

Inductive Query :=
| Q_globes (controller want : Address)
| Q_strategies (controller want : Address)
| Q_getHarvestable (s : Address)
| Q_performanceTreasuryFee (s : Address)
| Q_getReserves (pool : Address)
| Q_estimateGas (t : Tx) (from : Address)
| Q_getGasPrice
| Q_getTransactionCount (a : Address).

Inductive Stage := StageCreate | StageTx | StageGain | StageGas.

Definition stage_message (s : Stage) : string :=
  match s with
  | StageCreate => "Error fetching information from strategy"
  | StageTx => "Error adding harvest tx"
  | StageGain => "Error adding harvest gain"
  | StageGas => "Error adding harvest gas"
  end.

(** Lines of [console.log].  The number formatting of [Util] is not
    modelled: a line carries the values it prints. *)
Inductive Line :=
| L_comparing (a : Address)
| L_gasCost (cost : N)
| L_treasuryGain (gain : N)
| L_wouldHarvest (a : Address)
| L_harvesting (a : Address)
| L_bannerTest
| L_banner
| L_strategy (a : Address) (nm : option string)
| L_reinvested (png : N) (usdt : option N)
| L_transaction (hash : option string).

(** Lines of [console.error]. *)
Inductive ErrLine :=
| E_stage (msg : string)
| E_failed (a : Address) (nm : option string)
| E_reason (r : option Error)
| E_error (e : Error).

Inductive Event :=
| Read (q : Query)
| Send (t : Tx) (from : Address) (g gp : option N) (nonce : N)
| Log (l : Line)
| LogError (l : ErrLine)
| SetTimeoutExit (ms code : N)     (* setTimeout(() => process.exit(code), ms) *)
| SetIntervalLoop (ms : N).        (* setInterval(loop, ms) *)

(** ** The effect monad: a trace and a result *)

Definition M (A : Type) : Type := (list Event * Result A)%type.

Definition ret {A} (a : A) : M A := ([], Ok a).

Definition throw {A} (e : Error) : M A := ([], Throw e).

Definition bind {A B} (m : M A) (f : A -> M B) : M B :=
  match m with
  | (t1, Ok a) => let (t2, r) := f a in (t1 ++ t2, r)
  | (t1, Throw e) => (t1, Throw e)
  end.

Notation "x <- m ;; k" := (bind m (fun x => k))
  (at level 61, m at next level, right associativity).
Notation "m ;; k" := (bind m (fun _ => k))
  (at level 61, right associativity).

Definition emit (ev : Event) : M unit := ([ev], Ok tt).

(** [promise.catch(handler)] *)
Definition catch {A} (m : M A) (handler : Error -> M A) : M A :=
  match m with
  | (t1, Throw e) => let (t2, r) := handler e in (t1 ++ t2, r)
  | ok => ok
  end.

(** An awaited read-only call: the query is traced, the snapshot answers. *)
Definition call {A} (q : Query) (answer : Result A) : M A := ([Read q], answer).

(** Reading a field that a later access dereferences: [undefined.f] is a
    TypeError. *)
Definition field {A} (what : string) (v : option A) : M A :=
  match v with
  | Some a => ret a
  | None => throw (TypeError what)
  end.

(** The first rejection of a list of results, or all the values. *)
Fixpoint collect {A} (rs : list (Result A)) : Result (list A) :=
  match rs with
  | [] => Ok []
  | Ok a :: rest =>
      match collect rest with
      | Ok l => Ok (a :: l)
      | Throw e => Throw e
      end
  | Throw e :: _ => Throw e
  end.

(** [Promise.all(ms)]: every item has been started, so every item's
    effects happen; the result is the list of values, or a rejection.
    The reason kept is that of the first rejected item of the list
    (JavaScript keeps the one that rejects first in time). *)
Definition promise_all {A} (ms : list (M A)) : M (list A) :=
  (List.concat (map fst ms), collect (map snd ms)).

Definition settle (r : Result (option Receipt)) : Settled :=
  match r with
  | Ok v => Fulfilled v
  | Throw e => Rejected e
  end.

(** [Promise.allSettled(ms)]: never rejects. *)
Definition promise_allSettled (ms : list (M (option Receipt))) : M (list Settled) :=
  (List.concat (map fst ms), Ok (map (fun m => settle (snd m)) ms)).

(** [array.map((x, i) => f(x, i))], the index counted from [i]. *)
Fixpoint mapi_from {A B} (i : nat) (f : A -> nat -> B) (l : list A) : list B :=
  match l with
  | [] => []
  | x :: rest => f x i :: mapi_from (S i) f rest
  end.

Definition mapi {A B} (f : A -> nat -> B) (l : list A) : list B := mapi_from 0 f l.

(** [array.filter(p)] for a predicate that logs and may throw. *)
Fixpoint filterM {A} (p : A -> M bool) (l : list A) : M (list A) :=
  match l with
  | [] => ret []
  | x :: rest =>
      b <- p x ;;
      kept <- filterM p rest ;;
      ret (if b then x :: kept else kept)
  end.

(** [string.toLowerCase()] on ASCII. *)
Definition lower_ascii (c : ascii) : ascii :=
  let n := nat_of_ascii c in
  if (Nat.leb 65 n && Nat.leb n 90)%bool then ascii_of_nat (n + 32) else c.

Fixpoint toLowerCase (s : string) : string :=
  match s with
  | EmptyString => EmptyString
  | String c rest => String (lower_ascii c) (toLowerCase rest)
  end.

(** [web3.utils.toBN] of a number the chain returned. *)
Definition toBN (n : N) : N := n.

(** bn.js [a.div(b)]: truncating, and an assertion when [b] is zero. *)
Definition BN_div (a b : N) : M N :=
  if b =? 0 then throw DivisionByZero else ret (a / b).

(** ** Pool pricing *)

(** Modelled from the spec: [Util.convertViaPool], whose file ([Util.js])
    is not among the sources.  The spec (4.2): output = quantity *
    reserveOut / reserveIn, integer division, truncating; a zero
    [reserveIn] surfaces as a division-by-zero failure. *)
Definition convertViaPool (quantity reserveIn reserveOut : N) : Result N :=
  if reserveIn =? 0 then Throw DivisionByZero
  else Ok (quantity * reserveOut / reserveIn).

Definition PANGOLIN_PNG_WAVAX_POOL_ADDRESS : Address :=
  "0xd7538cabbf8605bde1f4901b47b8d42c61de0367"%string.

Definition PANGOLIN_PNG_USDT_POOL_ADDRESS : Address :=
  "0xe8acf438b10a2c09f80aef3ef2858f8e758c98f9"%string.

Section Harvester.

Variable CONFIG : Config.
Variable web3 : Web3.

(** [convertPNGToWavax]: reserve0 is PNG, reserve1 is WAVAX. *)
Definition convertPNGToWavax (pngQuantity : N) : M N :=
  reserves <- call (Q_getReserves PANGOLIN_PNG_WAVAX_POOL_ADDRESS)
                   (call_getReserves web3 PANGOLIN_PNG_WAVAX_POOL_ADDRESS) ;;
  let (_reserve0, _reserve1) := (reserves : N * N) in
  let reserveIn := toBN _reserve0 in
  let reserveOut := toBN _reserve1 in
  ([], convertViaPool pngQuantity reserveIn reserveOut).

(** [convertPNGToUSDT]: reserve0 is PNG, reserve1 is USDT. *)
Definition convertPNGToUSDT (pngQuantity : N) : M N :=
  reserves <- call (Q_getReserves PANGOLIN_PNG_USDT_POOL_ADDRESS)
                   (call_getReserves web3 PANGOLIN_PNG_USDT_POOL_ADDRESS) ;;
  let (_reserve0, _reserve1) := (reserves : N * N) in
  let reserveIn := toBN _reserve0 in
  let reserveOut := toBN _reserve1 in
  ([], convertViaPool pngQuantity reserveIn reserveOut).

(** ** Strategy discovery *)

(** The [for] loop of [initContracts]: the two registry reads are awaited
    one after the other, so the first one that rejects ends the loop. *)
Fixpoint initContracts_from (contractCache : list StrategyTarget)
         (wantsAddresses : list Address) : M (list StrategyTarget) :=
  match wantsAddresses with
  | [] => ret contractCache
  | wantAddress :: rest =>
      g <- call (Q_globes (CONTROLLER CONFIG) wantAddress)
                (call_globes web3 (CONTROLLER CONFIG) wantAddress) ;;
      s <- call (Q_strategies (CONTROLLER CONFIG) wantAddress)
                (call_strategies web3 (CONTROLLER CONFIG) wantAddress) ;;
      let snowglobeAddresses := [g] in
      let strategyAddresses := [s] in
      if (existsb (fun a => negb (isAddress web3 a)) snowglobeAddresses
          || existsb (fun a => negb (isAddress web3 a)) strategyAddresses)%bool
      then initContracts_from contractCache rest
      else initContracts_from
             (contractCache ++
                [ {| globes := map (mkContract SNOWGLOBE_ABI) snowglobeAddresses;
                     strategies := map (mkContract STRATEGY_ABI) strategyAddresses |} ])
             rest
  end.

Definition initContracts (wantsAddresses : list Address) : M (list StrategyTarget) :=
  initContracts_from [] wantsAddresses.

(** ** The evaluation stages *)

(** What every stage appends to its [Promise.all]:
    [.catch(err => { console.error(msg); throw err; })]. *)
Definition tagged {A} (s : Stage) (m : M A) : M A :=
  catch m (fun err => emit (LogError (E_stage (stage_message s))) ;; throw err).

Definition mapStrategyToHarvestable (strategyContract : Contract) : M Harvest :=
  let a := _address strategyContract in
  h <- call (Q_getHarvestable a) (call_getHarvestable web3 a) ;;
  fee <- call (Q_performanceTreasuryFee a)
              (call_performanceTreasuryFee web3 a 0%nat) ;;
  max <- call (Q_performanceTreasuryFee a)
              (call_performanceTreasuryFee web3 a 1%nat) ;;
  ret {| strategy := strategyContract;
         name := STRATEGY_NAME CONFIG (toLowerCase a);
         harvestable := toBN h;
         treasuryFee := toBN fee;
         treasuryMax := toBN max;
         tx := None; gainWAVAX := None; gainUSDT := None;
         gas := None; gasPrice := None |}.

(** [contracts.map(c => c.strategies).reduce((o, s) => o.concat(s), [])] *)
Definition allStrategies (contracts : list StrategyTarget) : list Contract :=
  fold_left (fun output strats => output ++ strats) (map strategies contracts) [].

Definition createHarvests (contracts : list StrategyTarget) : M (list Harvest) :=
  let strategyContracts := allStrategies contracts in
  tagged StageCreate (promise_all (map mapStrategyToHarvestable strategyContracts)).

(** [{...harvest, tx: harvest.strategy.methods.harvest()}] *)
Definition addHarvestTx_each (harvest : Harvest) : M Harvest :=
  ret {| strategy := strategy harvest;
         name := name harvest;
         harvestable := harvestable harvest;
         treasuryFee := treasuryFee harvest;
         treasuryMax := treasuryMax harvest;
         tx := Some (HarvestCall (strategy harvest));
         gainWAVAX := gainWAVAX harvest;
         gainUSDT := gainUSDT harvest;
         gas := gas harvest;
         gasPrice := gasPrice harvest |}.

Definition addHarvestTx (harvests : list Harvest) : M (list Harvest) :=
  tagged StageTx (promise_all (map addHarvestTx_each harvests)).

(** [{...harvest, gainWAVAX: await ..., gainUSDT: await ...}] *)
Definition addHarvestGain_each (harvest : Harvest) : M Harvest :=
  gw <- convertPNGToWavax (harvestable harvest) ;;
  gu <- convertPNGToUSDT (harvestable harvest) ;;
  ret {| strategy := strategy harvest;
         name := name harvest;
         harvestable := harvestable harvest;
         treasuryFee := treasuryFee harvest;
         treasuryMax := treasuryMax harvest;
         tx := tx harvest;
         gainWAVAX := Some gw;
         gainUSDT := Some gu;
         gas := gas harvest;
         gasPrice := gasPrice harvest |}.

Definition addHarvestGain (harvests : list Harvest) : M (list Harvest) :=
  tagged StageGain (promise_all (map addHarvestGain_each harvests)).

(** [{...harvest, gas: await harvest.tx.estimateGas({from}), gasPrice: await
    web3.eth.getGasPrice()}] *)
Definition addHarvestGas_each (harvest : Harvest) : M Harvest :=
  t <- field "tx" (tx harvest) ;;
  g <- call (Q_estimateGas t (WALLET_ADDRESS CONFIG))
            (estimateGas web3 t (WALLET_ADDRESS CONFIG)) ;;
  gp <- call Q_getGasPrice (getGasPrice web3) ;;
  ret {| strategy := strategy harvest;
         name := name harvest;
         harvestable := harvestable harvest;
         treasuryFee := treasuryFee harvest;
         treasuryMax := treasuryMax harvest;
         tx := tx harvest;
         gainWAVAX := gainWAVAX harvest;
         gainUSDT := gainUSDT harvest;
         gas := Some g;
         gasPrice := Some gp |}.

Definition addHarvestGas (harvests : list Harvest) : M (list Harvest) :=
  tagged StageGas (promise_all (map addHarvestGas_each harvests)).

(** ** The profitability filter *)

(** The predicate that [filterHarvestByCostVsGain] gives to
    [harvests.filter]. *)
Definition costVsGain (harvest : Harvest) : M bool :=
  emit (Log (L_comparing (_address (strategy harvest)))) ;;
  g <- field "gas" (gas harvest) ;;
  gp <- field "gasPrice" (gasPrice harvest) ;;
  let costAsAvax := toBN g * toBN gp in
  gw <- field "gainWAVAX" (gainWAVAX harvest) ;;
  treasuryGainAsAvax <- BN_div (gw * treasuryFee harvest) (treasuryMax harvest) ;;
  emit (Log (L_gasCost costAsAvax)) ;;
  emit (Log (L_treasuryGain treasuryGainAsAvax)) ;;
  ret (costAsAvax <? treasuryGainAsAvax).

Definition filterHarvestByCostVsGain (harvests : list Harvest) : M (list Harvest) :=
  filterM costVsGain harvests.

(** ** The executor *)

Definition executeHarvestTx (nonce : N) (harvest : Harvest) (i : nat)
  : M (option Receipt) :=
  if TEST_MODE CONFIG
  then emit (Log (L_wouldHarvest (_address (strategy harvest)))) ;; ret None
  else
    emit (Log (L_harvesting (_address (strategy harvest)))) ;;
    t <- field "tx" (tx harvest) ;;
    let n := nonce + N.of_nat i in
    emit (Send t (WALLET_ADDRESS CONFIG) (gas harvest) (gasPrice harvest) n) ;;
    receipt <- ([], send web3 t (WALLET_ADDRESS CONFIG)
                         (gas harvest) (gasPrice harvest) n) ;;
    ret (Some receipt).

Definition doHarvesting (harvests : list Harvest)
  : M (list Settled * list Harvest) :=
  nonce <- call (Q_getTransactionCount (WALLET_ADDRESS CONFIG))
                (getTransactionCount web3 (WALLET_ADDRESS CONFIG)) ;;
  results <- promise_allSettled (mapi (executeHarvestTx nonce) harvests) ;;
  ret (results, harvests).

(** ** The reporter *)

(** One turn of the [for] loop of [logHarvestingResults]; [harvest] is
    [harvests[i]], [undefined] past the end. *)
Definition logHarvestingResult (result : Settled) (harvest : option Harvest)
  : M unit :=
  let value := value_of result in
  let reason := reason_of result in
  if (match value with Some _ => true | None => false end || TEST_MODE CONFIG)%bool
  then
    emit (Log (if TEST_MODE CONFIG then L_bannerTest else L_banner)) ;;
    h <- field "harvest" harvest ;;
    emit (Log (L_strategy
                 (match value with
                  | Some r => to r
                  | None => _address (strategy h)
                  end) (name h))) ;;
    emit (Log (L_reinvested (harvestable h) (gainUSDT h))) ;;
    emit (Log (L_transaction (option_map transactionHash value)))
  else
    h <- field "harvest" harvest ;;
    emit (LogError (E_failed (_address (strategy h)) (name h))) ;;
    emit (LogError (E_reason reason)).

Fixpoint logHarvestingResults_from (i : nat) (results : list Settled)
         (harvests : list Harvest) : M unit :=
  match results with
  | [] => ret tt
  | result :: rest =>
      logHarvestingResult result (nth_error harvests i) ;;
      logHarvestingResults_from (S i) rest harvests
  end.

Definition logHarvestingResults (rh : list Settled * list Harvest) : M unit :=
  let (results, harvests) := rh in
  logHarvestingResults_from 0 results harvests.

(** ** The cycle *)

Definition handleError (err : Error) : M unit :=
  emit (LogError (E_error err)) ;;
  emit (SetTimeoutExit 1000 1).

(** Stages 1 to 4. *)
Definition evaluation (contracts : list StrategyTarget) : M (list Harvest) :=
  hs <- createHarvests contracts ;;
  hs <- addHarvestTx hs ;;
  hs <- addHarvestGain hs ;;
  addHarvestGas hs.

(** The promise chain of [loop] before its [.catch]. *)
Definition pipeline (contracts : list StrategyTarget) : M unit :=
  hs <- evaluation contracts ;;
  hs <- filterHarvestByCostVsGain hs ;;
  rh <- doHarvesting hs ;;
  logHarvestingResults rh.

Definition loop (contracts : list StrategyTarget) : M unit :=
  catch (pipeline contracts) handleError.

(** The async function the process starts with: discovery, one cycle
    now, then the timer.  Nothing catches a rejection of [initContracts].
    [loop()] is not awaited: the trace lists the first cycle's effects
    where the call stands. *)
Definition main : M unit :=
  contracts <- initContracts (WANTS CONFIG) ;;
  loop contracts ;;
  emit (SetIntervalLoop (INTERVAL CONFIG)).

End Harvester.

(** ** Vocabulary of the properties *)

(** A record that has been through stages 1 to 4. *)
Definition fullyBuilt (h : Harvest) : Prop :=
  tx h <> None /\ gainWAVAX h <> None /\ gainUSDT h <> None /\
  gas h <> None /\ gasPrice h <> None.

(** A record as stage 1 makes it: none of the later fields yet. *)
Definition draft (h : Harvest) : Prop :=
  tx h = None /\ gainWAVAX h = None /\ gainUSDT h = None /\
  gas h = None /\ gasPrice h = None.

(** estimatedGasUnits * gasPriceWei *)
Definition costInNative (h : Harvest) : N :=
  match gas h, gasPrice h with
  | Some g, Some gp => g * gp
  | _, _ => 0
  end.

(** gainInNativeToken * treasuryFeeNumerator / treasuryFeeDenominator *)
Definition treasuryGainInNative (h : Harvest) : N :=
  match gainWAVAX h with
  | Some gw => gw * treasuryFee h / treasuryMax h
  | None => 0
  end.

Definition profitable (h : Harvest) : bool :=
  costInNative h <? treasuryGainInNative h.

(** The three console lines the filter prints for a candidate. *)
Definition comparison_lines (h : Harvest) : list Event :=
  [ Log (L_comparing (_address (strategy h)));
    Log (L_gasCost (costInNative h));
    Log (L_treasuryGain (treasuryGainInNative h)) ].

(** The fields stage 1 sets are the same in both records. *)
Definition sameBase (i o : Harvest) : Prop :=
  strategy o = strategy i /\ name o = name i /\
  harvestable o = harvestable i /\
  treasuryFee o = treasuryFee i /\ treasuryMax o = treasuryMax i.

(** Every field that [i] has, [o] has with the same value. *)
Definition retains (i o : Harvest) : Prop :=
  sameBase i o /\
  (forall v, tx i = Some v -> tx o = Some v) /\
  (forall v, gainWAVAX i = Some v -> gainWAVAX o = Some v) /\
  (forall v, gainUSDT i = Some v -> gainUSDT o = Some v) /\
  (forall v, gas i = Some v -> gas o = Some v) /\
  (forall v, gasPrice i = Some v -> gasPrice o = Some v).

(** What each evaluation stage does to a record: every field but the
    stage's own is copied, and the stage's own is set. *)
Definition frame_tx (i o : Harvest) : Prop :=
  sameBase i o /\
  gainWAVAX o = gainWAVAX i /\ gainUSDT o = gainUSDT i /\
  gas o = gas i /\ gasPrice o = gasPrice i /\
  tx o = Some (HarvestCall (strategy i)).

Definition frame_gain (i o : Harvest) : Prop :=
  sameBase i o /\
  tx o = tx i /\ gas o = gas i /\ gasPrice o = gasPrice i /\
  gainWAVAX o <> None /\ gainUSDT o <> None.

Definition frame_gas (i o : Harvest) : Prop :=
  sameBase i o /\
  tx o = tx i /\ gainWAVAX o = gainWAVAX i /\ gainUSDT o = gainUSDT i /\
  gas o <> None /\ gasPrice o <> None.

(** The effects of a stage over [xs]: those of its items, one after the
    other. *)
Definition stage_trace {A B} (f : A -> M B) (xs : list A) : list Event :=
  List.concat (map fst (map f xs)).

(** gainInNativeToken *)
Definition gainInNative (h : Harvest) : N :=
  match gainWAVAX h with
  | Some gw => gw
  | None => 0
  end.

(** Numerator and denominator of the treasury fee are one number. *)
Definition sameFee (h : Harvest) : Prop := treasuryFee h = treasuryMax h.

(** The fee pair of a record is what the two calls of
    [performanceTreasuryFee()] on its strategy answered. *)
Definition feePairRead (web3 : Web3) (h : Harvest) : Prop :=
  call_performanceTreasuryFee web3 (_address (strategy h)) 0%nat =
    Ok (treasuryFee h) /\
  call_performanceTreasuryFee web3 (_address (strategy h)) 1%nat =
    Ok (treasuryMax h).

(** The two registry reads discovery makes for a tracked asset. *)
Definition registry_reads (CONFIG : Config) (want : Address) : list Event :=
  [ Read (Q_globes (CONTROLLER CONFIG) want);
    Read (Q_strategies (CONTROLLER CONFIG) want) ].

(** Both registry reads for [want] answer. *)
Definition resolves (CONFIG : Config) (web3 : Web3) (want : Address) : Prop :=
  exists g s,
    call_globes web3 (CONTROLLER CONFIG) want = Ok g /\
    call_strategies web3 (CONTROLLER CONFIG) want = Ok s.

(** The target a tracked asset yields: one when both resolved addresses
    are well-formed, none otherwise. *)
Definition accepted (CONFIG : Config) (web3 : Web3) (want : Address)
  : list StrategyTarget :=
  match call_globes web3 (CONTROLLER CONFIG) want,
        call_strategies web3 (CONTROLLER CONFIG) want with
  | Ok g, Ok s =>
      if (isAddress web3 g && isAddress web3 s)%bool
      then [ {| globes := [mkContract SNOWGLOBE_ABI g];
                strategies := [mkContract STRATEGY_ABI s] |} ]
      else []
  | _, _ => []
  end.

(** Events by kind. *)
Definition is_Send (ev : Event) : bool :=
  match ev with Send _ _ _ _ _ => true | _ => false end.

Definition is_txCountRead (ev : Event) : bool :=
  match ev with Read (Q_getTransactionCount _) => true | _ => false end.

Definition is_LogError (ev : Event) : bool :=
  match ev with LogError _ => true | _ => false end.

(** The only events stages 1 to 4 can cause: their own chain reads and
    their own error lines. *)
Definition is_evaluation_event (ev : Event) : bool :=
  match ev with
  | Read (Q_getHarvestable _) => true
  | Read (Q_performanceTreasuryFee _) => true
  | Read (Q_getReserves _) => true
  | Read (Q_estimateGas _ _) => true
  | Read Q_getGasPrice => true
  | LogError (E_stage _) => true
  | _ => false
  end.

(** The transaction submissions in a trace, in order. *)
Definition submissions (tr : list Event) : list Event := filter is_Send tr.

(** What [Promise.allSettled] holds for the record at position [i]. *)
Definition outcome (CONFIG : Config) (web3 : Web3) (nonce : N)
           (harvest : Harvest) (i : nat) : Settled :=
  settle (snd (executeHarvestTx CONFIG web3 nonce harvest i)).

(** The reporter's success summary and failure summary for a record. *)
Definition success_lines (CONFIG : Config) (h : Harvest)
           (value : option Receipt) : list Event :=
  [ Log (if TEST_MODE CONFIG then L_bannerTest else L_banner);
    Log (L_strategy (match value with
                     | Some r => to r
                     | None => _address (strategy h)
                     end) (name h));
    Log (L_reinvested (harvestable h) (gainUSDT h));
    Log (L_transaction (option_map transactionHash value)) ].

Definition failure_lines (h : Harvest) (reason : option Error) : list Event :=
  [ LogError (E_failed (_address (strategy h)) (name h));
    LogError (E_reason reason) ].

(** The lines reported for a record and its settled outcome. *)
Definition report (CONFIG : Config) (hr : Harvest * Settled) : list Event :=
  let (h, r) := hr in
  match r with
  | Fulfilled (Some v) => success_lines CONFIG h (Some v)
  | Fulfilled None =>
      if TEST_MODE CONFIG then success_lines CONFIG h None
      else failure_lines h None
  | Rejected e =>
      if TEST_MODE CONFIG then success_lines CONFIG h None
      else failure_lines h (Some e)
  end.

(** Events that end the process or arm the cycle timer: none of them is
    caused by the promise chain of a cycle before its [.catch]. *)
Definition is_timer (ev : Event) : bool :=
  match ev with
  | SetTimeoutExit _ _ => true
  | SetIntervalLoop _ => true
  | _ => false
  end.

Definition is_registry_read (ev : Event) : bool :=
  match ev with
  | Read (Q_globes _ _) => true
  | Read (Q_strategies _ _) => true
  | _ => false
  end.

(** The cycle's trace arms no process exit. *)
Definition keeps_running (tr : list Event) : Prop :=
  forall ms code, ~ In (SetTimeoutExit ms code) tr.

(** Stage [s] is the first of stages 1 to 4 to reject, with reason [e],
    [t] being the trace up to and including that stage. *)
Definition rejects_at (CONFIG : Config) (web3 : Web3)
           (contracts : list StrategyTarget)
           (s : Stage) (t : list Event) (e : Error) : Prop :=
  match s with
  | StageCreate =>
      createHarvests CONFIG web3 contracts = (t, Throw e)
  | StageTx =>
      exists t1 hs1 t2,
        createHarvests CONFIG web3 contracts = (t1, Ok hs1) /\
        addHarvestTx hs1 = (t2, Throw e) /\ t = t1 ++ t2
  | StageGain =>
      exists t1 hs1 t2 hs2 t3,
        createHarvests CONFIG web3 contracts = (t1, Ok hs1) /\
        addHarvestTx hs1 = (t2, Ok hs2) /\
        addHarvestGain web3 hs2 = (t3, Throw e) /\ t = t1 ++ t2 ++ t3
  | StageGas =>
      exists t1 hs1 t2 hs2 t3 hs3 t4,
        createHarvests CONFIG web3 contracts = (t1, Ok hs1) /\
        addHarvestTx hs1 = (t2, Ok hs2) /\
        addHarvestGain web3 hs2 = (t3, Ok hs3) /\
        addHarvestGas CONFIG web3 hs3 = (t4, Throw e) /\
        t = t1 ++ t2 ++ t3 ++ t4
  end.

(** ** A small chain to run the pipeline on *)

Definition sampleConfig (testMode : bool) : Config :=
  {| TEST_MODE := testMode;
     WANTS := ["0xWantA"; "0xWantB"; "0xWantC"]%string;
     CONTROLLER := "0xController"%string;
     WALLET_ADDRESS := "0xWallet"%string;
     INTERVAL := 60000;
     STRATEGY_NAME := fun a =>
       if String.eqb a "0xstrata" then Some "Strategy A"%string else None |}.

(** Three tracked assets, the second one without a vault; strategy A has
    1000 reward tokens pending and strategy C has 10; a submission to
    strategy C reverts.  With [rpcUp = false] the reads of the pending
    reward reject. *)
Definition sampleWeb3 (rpcUp : bool) : Web3 :=
  {| isAddress := fun s => String.prefix "0x" s;
     call_globes := fun _ want =>
       if String.eqb want "0xWantA" then Ok "0xGlobeA"%string
       else if String.eqb want "0xWantB" then Ok "unset"%string
       else if String.eqb want "0xWantC" then Ok "0xGlobeC"%string
       else Throw (RpcError "unknown asset");
     call_strategies := fun _ want =>
       if String.eqb want "0xWantA" then Ok "0xStratA"%string
       else if String.eqb want "0xWantB" then Ok "0xStratB"%string
       else if String.eqb want "0xWantC" then Ok "0xStratC"%string
       else Throw (RpcError "unknown asset");
     call_getHarvestable := fun s =>
       if rpcUp
       then if String.eqb s "0xStratA" then Ok 1000 else Ok 10
       else Throw (RpcError "timeout");
     call_performanceTreasuryFee := fun _ _ => Ok 20;
     call_getReserves := fun pool =>
       if String.eqb pool PANGOLIN_PNG_WAVAX_POOL_ADDRESS then Ok (1000, 2000)
       else Ok (1000, 3000);
     estimateGas := fun _ _ => Ok 50;
     getGasPrice := Ok 3;
     getTransactionCount := fun _ => Ok 7;
     send := fun t _ _ _ _ =>
       match t with
       | HarvestCall c =>
           if String.eqb (_address c) "0xStratA"
           then Ok {| to := "0xStratA"; transactionHash := "0xabc" |}
           else Throw (RpcError "reverted")
       end |}.

Definition sampleContracts : list StrategyTarget :=
  [ {| globes := [mkContract SNOWGLOBE_ABI "0xGlobeA"];
       strategies := [mkContract STRATEGY_ABI "0xStratA"] |};
    {| globes := [mkContract SNOWGLOBE_ABI "0xGlobeC"];
       strategies := [mkContract STRATEGY_ABI "0xStratC"] |} ].

(** A fully-built record: [feeNum / feeDen] of [gain] against
    [gasUnits * price]. *)
Definition sampleRecord (a : Address) (gain feeNum feeDen gasUnits price : N)
  : Harvest :=
  {| strategy := mkContract STRATEGY_ABI a;
     name := None;
     harvestable := gain;
     treasuryFee := feeNum;
     treasuryMax := feeDen;
     tx := Some (HarvestCall (mkContract STRATEGY_ABI a));
     gainWAVAX := Some gain;
     gainUSDT := Some (3 * gain);
     gas := Some gasUnits;
     gasPrice := Some price |}.

(** Treasury gain 200 against cost 150, and against cost 200. *)
Definition sampleBatch : list Harvest :=
  [ sampleRecord "0xStratA" 1000 20 100 50 3;
    sampleRecord "0xStratC" 1000 20 100 50 4 ].

(** The records of stage 1 for the two sample strategies. *)
Definition sampleDrafts : list Harvest :=
  [ {| strategy := mkContract STRATEGY_ABI "0xStratA";
       name := Some "Strategy A"%string;
       harvestable := 1000; treasuryFee := 20; treasuryMax := 20;
       tx := None; gainWAVAX := None; gainUSDT := None;
       gas := None; gasPrice := None |};
    {| strategy := mkContract STRATEGY_ABI "0xStratC";
       name := None;
       harvestable := 10; treasuryFee := 20; treasuryMax := 20;
       tx := None; gainWAVAX := None; gainUSDT := None;
       gas := None; gasPrice := None |} ].

(** The sample chain with every strategy reporting a zero treasury fee. *)
Definition zeroFeeWeb3 : Web3 :=
  let w := sampleWeb3 true in
  {| isAddress := isAddress w;
     call_globes := call_globes w;
     call_strategies := call_strategies w;
     call_getHarvestable := call_getHarvestable w;
     call_performanceTreasuryFee := fun _ _ => Ok 0;
     call_getReserves := call_getReserves w;
     estimateGas := estimateGas w;
     getGasPrice := getGasPrice w;
     getTransactionCount := getTransactionCount w;
     send := send w |}.

(** The sample chain with strategy A reporting a fee of 20 and strategy C
    a fee of zero. *)
Definition mixedFeeWeb3 : Web3 :=
  let w := sampleWeb3 true in
  {| isAddress := isAddress w;
     call_globes := call_globes w;
     call_strategies := call_strategies w;
     call_getHarvestable := call_getHarvestable w;
     call_performanceTreasuryFee := fun s _ =>
       if String.eqb s "0xStratA" then Ok 20 else Ok 0;
     call_getReserves := call_getReserves w;
     estimateGas := estimateGas w;
     getGasPrice := getGasPrice w;
     getTransactionCount := getTransactionCount w;
     send := send w |}.

(** The sample chain with the fee changing between the two calls: 20 is
    the first answer, 30 the second. *)
Definition driftingFeeWeb3 : Web3 :=
  let w := sampleWeb3 true in
  {| isAddress := isAddress w;
     call_globes := call_globes w;
     call_strategies := call_strategies w;
     call_getHarvestable := call_getHarvestable w;
     call_performanceTreasuryFee := fun _ k =>
       match k with O => Ok 20 | S _ => Ok 30 end;
     call_getReserves := call_getReserves w;
     estimateGas := estimateGas w;
     getGasPrice := getGasPrice w;
     getTransactionCount := getTransactionCount w;
     send := send w |}.

(** ** Vocabulary of the further properties *)

(** [CONFIG] with the dry-run flag set to [b]. *)
Definition withTestMode (b : bool) (c : Config) : Config :=
  {| TEST_MODE := b;
     WANTS := WANTS c;
     CONTROLLER := CONTROLLER c;
     WALLET_ADDRESS := WALLET_ADDRESS c;
     INTERVAL := INTERVAL c;
     STRATEGY_NAME := STRATEGY_NAME c |}.

(** The strategies a dry-run says it would have harvested, in order. *)
Definition previews (tr : list Event) : list Address :=
  flat_map (fun ev => match ev with
                      | Log (L_wouldHarvest a) => [a]
                      | _ => []
                      end) tr.

(** The contracts transactions were submitted to, in order. *)
Definition sent_to (tr : list Event) : list Address :=
  flat_map (fun ev => match ev with
                      | Send (HarvestCall c) _ _ _ _ => [_address c]
                      | _ => []
                      end) tr.

(** What the filter reads of a record. *)
Definition filterable (h : Harvest) : Prop :=
  gas h <> None /\ gasPrice h <> None /\ gainWAVAX h <> None /\
  treasuryMax h <> 0.

(** The chain reads of a resolved evaluation, per strategy and stage. *)
Definition create_reads (c : Contract) : list Event :=
  [ Read (Q_getHarvestable (_address c));
    Read (Q_performanceTreasuryFee (_address c));
    Read (Q_performanceTreasuryFee (_address c)) ].

Definition gain_reads (c : Contract) : list Event :=
  [ Read (Q_getReserves PANGOLIN_PNG_WAVAX_POOL_ADDRESS);
    Read (Q_getReserves PANGOLIN_PNG_USDT_POOL_ADDRESS) ].

Definition gas_reads (CONFIG : Config) (c : Contract) : list Event :=
  [ Read (Q_estimateGas (HarvestCall c) (WALLET_ADDRESS CONFIG));
    Read Q_getGasPrice ].

Definition is_gasPriceRead (ev : Event) : bool :=
  match ev with Read Q_getGasPrice => true | _ => false end.

(** The record of strategy [c] as stages 1 to 4 build it on [web3]. *)
Definition built_for (CONFIG : Config) (web3 : Web3) (c : Contract)
           (h : Harvest) : Prop :=
  strategy h = c /\
  name h = STRATEGY_NAME CONFIG (toLowerCase (_address c)) /\
  call_getHarvestable web3 (_address c) = Ok (harvestable h) /\
  call_performanceTreasuryFee web3 (_address c) 0%nat = Ok (treasuryFee h) /\
  call_performanceTreasuryFee web3 (_address c) 1%nat = Ok (treasuryMax h) /\
  tx h = Some (HarvestCall c) /\
  (exists gw, gainWAVAX h = Some gw /\
              snd (convertPNGToWavax web3 (harvestable h)) = Ok gw) /\
  (exists gu, gainUSDT h = Some gu /\
              snd (convertPNGToUSDT web3 (harvestable h)) = Ok gu) /\
  (exists g, gas h = Some g /\
             estimateGas web3 (HarvestCall c) (WALLET_ADDRESS CONFIG) = Ok g) /\
  (exists gp, gasPrice h = Some gp /\ getGasPrice web3 = Ok gp).

(** The submission of record [h] at position [i] in a live batch. *)
Definition submission (CONFIG : Config) (base : N) (h : Harvest) (i : nat)
  : Event :=
  Send (HarvestCall (strategy h)) (WALLET_ADDRESS CONFIG) (gas h) (gasPrice h)
       (base + N.of_nat i).

(** The two effects of [handleError]. *)
Definition handler_events (e : Error) : list Event :=
  [LogError (E_error e); SetTimeoutExit 1000 1].

(** Console lines the filter prints, and lines the reporter prints. *)
Definition is_comparison_line (ev : Event) : bool :=
  match ev with
  | Log (L_comparing _) => true
  | Log (L_gasCost _) => true
  | Log (L_treasuryGain _) => true
  | _ => false
  end.

Definition is_report_line (ev : Event) : bool :=
  match ev with
  | Log L_bannerTest => true
  | Log L_banner => true
  | Log (L_strategy _ _) => true
  | Log (L_reinvested _ _) => true
  | Log (L_transaction _) => true
  | LogError (E_failed _ _) => true
  | LogError (E_reason _) => true
  | _ => false
  end.

(** The effects of the executor's fan-out over a batch. *)
Definition executor_trace (CONFIG : Config) (web3 : Web3) (base : N)
           (hs : list Harvest) : list Event :=
  List.concat (mapi (fun h i => fst (executeHarvestTx CONFIG web3 base h i)) hs).

(** A target as discovery builds it: one vault and one strategy, both at
    well-formed addresses. *)
Definition one_vault_one_strategy (web3 : Web3) (target : StrategyTarget) : Prop :=
  exists g s,
    isAddress web3 g = true /\ isAddress web3 s = true /\
    globes target = [mkContract SNOWGLOBE_ABI g] /\
    strategies target = [mkContract STRATEGY_ABI s].

(** An event that is neither a dry-run preview nor a submission. *)
Definition silent (ev : Event) : Prop :=
  previews [ev] = [] /\ sent_to [ev] = [].

(** ** Properties *)

(** *** The monad and the promise combinators *)

Lemma bind_Ok {A B} (m : M A) (f : A -> M B) t1 a :
  m = (t1, Ok a) -> bind m f = (t1 ++ fst (f a), snd (f a)).
Proof. intros ->. unfold bind. destruct (f a); reflexivity. Qed.

Lemma bind_Throw {A B} (m : M A) (f : A -> M B) t1 e :
  m = (t1, Throw e) -> bind m f = (t1, Throw e).
Proof. intros ->. reflexivity. Qed.

Lemma bind_inv_Ok {A B} (m : M A) (f : A -> M B) t b :
  bind m f = (t, Ok b) ->
  exists t1 a t2, m = (t1, Ok a) /\ f a = (t2, Ok b) /\ t = t1 ++ t2.
Proof.
  destruct m as [t1 [a|e]]; simpl.
  - destruct (f a) as [t2 r] eqn:Hf. intros H. inversion H; subst.
    exists t1, a, t2. auto.
  - discriminate.
Qed.



(** *** The pool pricer *)

Lemma convertViaPool_nonzero q rIn rOut :
  rIn <> 0 -> convertViaPool q rIn rOut = Ok (q * rOut / rIn).
Proof.
  intros H. unfold convertViaPool.
  destruct (N.eqb_spec rIn 0); [contradiction|reflexivity].
Qed.

Lemma convertPNGToWavax_reserves web3 q r0 r1 :
  call_getReserves web3 PANGOLIN_PNG_WAVAX_POOL_ADDRESS = Ok (r0, r1) ->
  convertPNGToWavax web3 q =
    ([Read (Q_getReserves PANGOLIN_PNG_WAVAX_POOL_ADDRESS)], convertViaPool q r0 r1).
Proof. intros H. unfold convertPNGToWavax, call. rewrite H. reflexivity. Qed.

Lemma convertPNGToUSDT_reserves web3 q r0 r1 :
  call_getReserves web3 PANGOLIN_PNG_USDT_POOL_ADDRESS = Ok (r0, r1) ->
  convertPNGToUSDT web3 q =
    ([Read (Q_getReserves PANGOLIN_PNG_USDT_POOL_ADDRESS)], convertViaPool q r0 r1).
Proof. intros H. unfold convertPNGToUSDT, call. rewrite H. reflexivity. Qed.

(** C4 (pool conversion).  [convertViaPool q rIn rOut] is the floor of
    [q * rOut / rIn] when [rIn] is not zero, it is 0 for [q = 0], it fails
    with the division error for [rIn = 0], and swapping the reserves
    changes the result for some arguments.  Both call sites give
    [_reserve0] of the pool as [reserveIn] and [_reserve1] as
    [reserveOut]. *)
Theorem convert_floor_and_call_sites :
  (forall q rIn rOut, rIn <> 0 ->
     exists r, convertViaPool q rIn rOut = Ok r /\
               r = q * rOut / rIn /\
               r * rIn <= q * rOut < (r + 1) * rIn) /\
  (forall rIn rOut, rIn <> 0 -> convertViaPool 0 rIn rOut = Ok 0) /\
  (forall q rOut, convertViaPool q 0 rOut = Throw DivisionByZero) /\
  (exists q rIn rOut, convertViaPool q rIn rOut <> convertViaPool q rOut rIn) /\
  (forall web3 q r0 r1,
     call_getReserves web3 PANGOLIN_PNG_WAVAX_POOL_ADDRESS = Ok (r0, r1) ->
     snd (convertPNGToWavax web3 q) = convertViaPool q r0 r1) /\
  (forall web3 q r0 r1,
     call_getReserves web3 PANGOLIN_PNG_USDT_POOL_ADDRESS = Ok (r0, r1) ->
     snd (convertPNGToUSDT web3 q) = convertViaPool q r0 r1).
Proof.
  split; [|split; [|split; [|split; [|split]]]].
  - intros q rIn rOut H. exists (q * rOut / rIn).
    split; [apply convertViaPool_nonzero; assumption|].
    split; [reflexivity|].
    split.
    + rewrite N.mul_comm. apply N.Div0.mul_div_le.
    + rewrite (N.mul_comm _ rIn), N.mul_add_distr_l, N.mul_1_r.
      pose proof (N.div_mod (q * rOut) rIn H) as Hdm.
      pose proof (N.mod_lt (q * rOut) rIn H) as Hlt.
      lia.
  - intros rIn rOut H. rewrite (convertViaPool_nonzero 0 rIn rOut H).
    rewrite N.mul_0_l, N.Div0.div_0_l. reflexivity.
  - intros q rOut. reflexivity.
  - exists 1, 1, 2. vm_compute. discriminate.
  - intros web3 q r0 r1 H. rewrite (convertPNGToWavax_reserves web3 q r0 r1 H).
    reflexivity.
  - intros web3 q r0 r1 H. rewrite (convertPNGToUSDT_reserves web3 q r0 r1 H).
    reflexivity.
Qed.

(** *** The profitability filter *)

Lemma costVsGain_fullyBuilt h :
  fullyBuilt h -> treasuryMax h <> 0 ->
  costVsGain h = (comparison_lines h, Ok (profitable h)).
Proof.
  intros (_ & Hgw & _ & Hg & Hgp) Hmax.
  unfold costVsGain, comparison_lines, profitable, costInNative,
    treasuryGainInNative.
  destruct (gas h) as [g|]; [|contradiction].
  destruct (gasPrice h) as [gp|]; [|contradiction].
  destruct (gainWAVAX h) as [gw|]; [|contradiction].
  unfold BN_div. destruct (N.eqb_spec (treasuryMax h) 0); [contradiction|].
  reflexivity.
Qed.

Lemma costVsGain_zero_denominator h g gp gw :
  gas h = Some g -> gasPrice h = Some gp -> gainWAVAX h = Some gw ->
  treasuryMax h = 0 ->
  costVsGain h = ([Log (L_comparing (_address (strategy h)))], Throw DivisionByZero).
Proof.
  intros Hg Hgp Hgw Hmax. unfold costVsGain.
  rewrite Hg, Hgp, Hgw, Hmax. reflexivity.
Qed.

Lemma filterHarvestByCostVsGain_fullyBuilt hs :
  Forall fullyBuilt hs -> Forall (fun h => treasuryMax h <> 0) hs ->
  filterHarvestByCostVsGain hs =
    (flat_map comparison_lines hs, Ok (filter profitable hs)).
Proof.
  unfold filterHarvestByCostVsGain.
  induction hs as [|h hs IH]; intros Hb Hm; [reflexivity|].
  inversion Hb as [|? ? Hb1 Hb2]; inversion Hm as [|? ? Hm1 Hm2]; subst.
  cbn [filterM flat_map filter].
  rewrite (bind_Ok _ _ _ _ (costVsGain_fullyBuilt h Hb1 Hm1)).
  rewrite (bind_Ok _ _ _ _ (IH Hb2 Hm2)).
  cbn [fst snd ret]. rewrite app_nil_r.
  destruct (profitable h); reflexivity.
Qed.

Lemma filterHarvestByCostVsGain_zero_denominator hs :
  Forall fullyBuilt hs -> Exists (fun h => treasuryMax h = 0) hs ->
  exists t, filterHarvestByCostVsGain hs = (t, Throw DivisionByZero).
Proof.
  unfold filterHarvestByCostVsGain.
  induction hs as [|h hs IH]; intros Hb Hz; [inversion Hz|].
  inversion Hb as [|? ? Hb1 Hb2]; subst. cbn [filterM].
  destruct (N.eq_dec (treasuryMax h) 0) as [Hz0|Hnz].
  - destruct Hb1 as (_ & Hgw & _ & Hg & Hgp).
    destruct (gas h) as [g|] eqn:Eg; [|contradiction].
    destruct (gasPrice h) as [gp|] eqn:Egp; [|contradiction].
    destruct (gainWAVAX h) as [gw|] eqn:Egw; [|contradiction].
    rewrite (bind_Throw _ _ _ _
               (costVsGain_zero_denominator h g gp gw Eg Egp Egw Hz0)).
    eexists. reflexivity.
  - inversion Hz as [? ? Hh|? ? Ht]; subst; [contradiction|].
    destruct (IH Hb2 Ht) as (t & Hrest).
    rewrite (bind_Ok _ _ _ _ (costVsGain_fullyBuilt h Hb1 Hnz)).
    cbv beta. rewrite (bind_Throw _ _ _ _ Hrest). cbn [fst snd].
    eexists. reflexivity.
Qed.

(** C1, as the code has it (profitability filter).  On a batch of
    fully-built records whose fee denominators are all non-zero the
    filter returns, in order, exactly the records with [gas * gasPrice <
    gainWAVAX * treasuryFee / treasuryMax] (the division truncating),
    prints both computed values for every candidate, and drops a record
    whose cost equals its treasury gain.  When a record of the batch has
    a zero denominator, the division of bn.js throws and the filter
    returns no record at all. *)
Theorem filter_keeps_iff_cost_lt_gain_unless_a_denominator_is_zero
        (hs : list Harvest) :
  Forall fullyBuilt hs ->
  (Forall (fun h => treasuryMax h <> 0) hs ->
   exists kept,
     filterHarvestByCostVsGain hs = (flat_map comparison_lines hs, Ok kept) /\
     kept = filter (fun h => costInNative h <? treasuryGainInNative h) hs /\
     (forall h, In h kept <->
                In h hs /\ costInNative h < treasuryGainInNative h) /\
     (forall h, In h hs -> costInNative h = treasuryGainInNative h ->
                ~ In h kept)) /\
  (Exists (fun h => treasuryMax h = 0) hs ->
   exists t, filterHarvestByCostVsGain hs = (t, Throw DivisionByZero)).
Proof.
  intros Hb. split.
  - intros Hm. exists (filter profitable hs).
    split; [apply filterHarvestByCostVsGain_fullyBuilt; assumption|].
    split; [reflexivity|].
    split.
    + intros h. rewrite filter_In. unfold profitable. rewrite N.ltb_lt. tauto.
    + intros h _ Heq Hin. apply filter_In in Hin. destruct Hin as [_ Hp].
      unfold profitable in Hp. apply N.ltb_lt in Hp. lia.
  - intros Hz. apply filterHarvestByCostVsGain_zero_denominator; assumption.
Qed.

(** *** Promise.all and the stage wrapper *)

Lemma collect_Ok_Forall2 {A} (rs : list (Result A)) l :
  collect rs = Ok l -> Forall2 (fun r a => r = Ok a) rs l.
Proof.
  revert l. induction rs as [|r rs IH]; intros l H.
  - inversion H. constructor.
  - destruct r as [a|e]; [|discriminate]. simpl in H.
    destruct (collect rs) as [l'|e]; [|discriminate].
    inversion H; subst. constructor; [reflexivity|apply IH; reflexivity].
Qed.

Lemma collect_Forall2_Ok {A} (rs : list (Result A)) l :
  Forall2 (fun r a => r = Ok a) rs l -> collect rs = Ok l.
Proof.
  induction 1 as [|r a rs l Hr _ IH]; [reflexivity|].
  subst r. simpl. rewrite IH. reflexivity.
Qed.

Lemma collect_Throw_In {A} (rs : list (Result A)) e :
  collect rs = Throw e -> In (Throw e) rs.
Proof.
  induction rs as [|r rs IH]; [discriminate|].
  destruct r as [a|e']; simpl.
  - destruct (collect rs) as [l|e'']; [discriminate|].
    intros H. inversion H; subst. right. apply IH. reflexivity.
  - intros H. inversion H; subst. left. reflexivity.
Qed.

Lemma collect_In_Throw {A} (rs : list (Result A)) e :
  In (Throw e) rs -> exists e', collect rs = Throw e'.
Proof.
  induction rs as [|r rs IH]; [contradiction|].
  intros [->|Hin]; [exists e; reflexivity|].
  destruct r as [a|e']; [|exists e'; reflexivity].
  destruct (IH Hin) as [e' He']. exists e'. simpl. rewrite He'. reflexivity.
Qed.



(** A stage that resolves: every item resolved, in order, and nothing but
    the items' effects was observed. *)
Lemma stage_Ok {A B} s (f : A -> M B) xs t out :
  tagged s (promise_all (map f xs)) = (t, Ok out) ->
  Forall2 (fun x o => snd (f x) = Ok o) xs out /\ t = stage_trace f xs.
Proof.
  unfold promise_all, stage_trace.
  destruct (collect (map snd (map f xs))) as [l|e] eqn:Hc; simpl; intros H.
  - inversion H; subst. split; [|reflexivity].
    apply collect_Ok_Forall2 in Hc. clear H.
    revert out Hc. induction xs as [|x xs IH]; intros out Hc.
    + inversion Hc. constructor.
    + simpl in Hc. inversion Hc; subst. constructor; [assumption|].
      apply IH. assumption.
  - discriminate.
Qed.

(** A stage one of whose items rejects: the stage rejects with the reason
    of one of its items, after printing its own message. *)
Lemma stage_Throw {A B} s (f : A -> M B) xs x e :
  In x xs -> snd (f x) = Throw e ->
  exists x' e', In x' xs /\ snd (f x') = Throw e' /\
    tagged s (promise_all (map f xs)) =
      (stage_trace f xs ++ [LogError (E_stage (stage_message s))], Throw e').
Proof.
  intros Hin Hx.
  assert (Hthrow : In (Throw e) (map snd (map f xs))).
  { rewrite map_map. rewrite <- Hx. apply (in_map (fun y => snd (f y))). assumption. }
  destruct (collect_In_Throw _ _ Hthrow) as [e' He'].
  pose proof (collect_Throw_In _ _ He') as Hin'.
  rewrite map_map in Hin'. apply in_map_iff in Hin'.
  destruct Hin' as (x' & Hx' & Hinx').
  exists x', e'. split; [assumption|]. split; [assumption|].
  unfold promise_all, stage_trace. rewrite He'. reflexivity.
Qed.

Lemma stage_Throw_inv {A B} s (f : A -> M B) xs t e :
  tagged s (promise_all (map f xs)) = (t, Throw e) ->
  (exists x, In x xs /\ snd (f x) = Throw e) /\
  t = stage_trace f xs ++ [LogError (E_stage (stage_message s))].
Proof.
  unfold promise_all, stage_trace.
  destruct (collect (map snd (map f xs))) as [l|e'] eqn:Hc; simpl; intros H.
  - discriminate.
  - inversion H; subst. split; [|reflexivity].
    apply collect_Throw_In in Hc. rewrite map_map in Hc.
    apply in_map_iff in Hc. destruct Hc as (x & Hx & Hin). exists x. auto.
Qed.

(** A stage all of whose items resolve. *)
Lemma stage_total {A B} s (f : A -> M B) xs out :
  Forall2 (fun x o => snd (f x) = Ok o) xs out ->
  tagged s (promise_all (map f xs)) = (stage_trace f xs, Ok out).
Proof.
  intros H. unfold promise_all, stage_trace.
  assert (Hc : collect (map snd (map f xs)) = Ok out).
  { apply collect_Forall2_Ok. induction H; simpl; constructor; auto. }
  rewrite Hc. reflexivity.
Qed.

(** *** The evaluation stages leave the rest of a record alone *)

Lemma addHarvestTx_each_frame h o :
  snd (addHarvestTx_each h) = Ok o -> frame_tx h o.
Proof.
  simpl. intros H. inversion H; subst. unfold frame_tx, sameBase. simpl.
  repeat split; reflexivity.
Qed.

Lemma addHarvestGain_each_frame web3 h o :
  snd (addHarvestGain_each web3 h) = Ok o -> frame_gain h o.
Proof.
  unfold addHarvestGain_each.
  destruct (convertPNGToWavax web3 (harvestable h)) as [t1 [gw|e]]; simpl;
    [|discriminate].
  destruct (convertPNGToUSDT web3 (harvestable h)) as [t2 [gu|e]]; simpl;
    [|discriminate].
  intros H. inversion H; subst. unfold frame_gain, sameBase. simpl.
  repeat split; try reflexivity; congruence.
Qed.

Lemma addHarvestGas_each_frame CONFIG web3 h o :
  snd (addHarvestGas_each CONFIG web3 h) = Ok o -> frame_gas h o.
Proof.
  unfold addHarvestGas_each.
  destruct (tx h) as [t|] eqn:Ht; simpl; [|discriminate].
  destruct (estimateGas web3 t (WALLET_ADDRESS CONFIG)) as [g|e]; simpl;
    [|discriminate].
  destruct (getGasPrice web3) as [gp|e]; simpl; [|discriminate].
  intros H. inversion H; subst. unfold frame_gas, sameBase. simpl.
  repeat split; try reflexivity; congruence.
Qed.

Lemma frame_tx_retains i o : frame_tx i o -> tx i = None -> retains i o.
Proof.
  intros (Hb & Hgw & Hgu & Hg & Hgp & _) Hn. unfold retains.
  rewrite Hgw, Hgu, Hg, Hgp, Hn. repeat split; try apply Hb; auto; discriminate.
Qed.

Lemma frame_gain_retains i o :
  frame_gain i o -> gainWAVAX i = None -> gainUSDT i = None -> retains i o.
Proof.
  intros (Hb & Ht & Hg & Hgp & _) Hn1 Hn2. unfold retains.
  rewrite Ht, Hg, Hgp, Hn1, Hn2. repeat split; try apply Hb; auto; discriminate.
Qed.

Lemma frame_gas_retains i o :
  frame_gas i o -> gas i = None -> gasPrice i = None -> retains i o.
Proof.
  intros (Hb & Ht & Hgw & Hgu & _) Hn1 Hn2. unfold retains.
  rewrite Ht, Hgw, Hgu, Hn1, Hn2. repeat split; try apply Hb; auto; discriminate.
Qed.

Lemma Forall2_impl {A B} (P Q : A -> B -> Prop) xs ys :
  (forall x y, P x y -> Q x y) -> Forall2 P xs ys -> Forall2 Q xs ys.
Proof. intros HPQ H. induction H; constructor; auto. Qed.

Lemma addHarvestTx_frame hs t out :
  addHarvestTx hs = (t, Ok out) -> Forall2 frame_tx hs out.
Proof.
  intros H. apply stage_Ok in H. destruct H as [H _].
  eapply Forall2_impl; [|exact H]. apply addHarvestTx_each_frame.
Qed.

Lemma addHarvestGain_frame web3 hs t out :
  addHarvestGain web3 hs = (t, Ok out) -> Forall2 frame_gain hs out.
Proof.
  intros H. apply stage_Ok in H. destruct H as [H _].
  eapply Forall2_impl; [|exact H]. apply addHarvestGain_each_frame.
Qed.

Lemma addHarvestGas_frame CONFIG web3 hs t out :
  addHarvestGas CONFIG web3 hs = (t, Ok out) -> Forall2 frame_gas hs out.
Proof.
  intros H. apply stage_Ok in H. destruct H as [H _].
  eapply Forall2_impl; [|exact H]. apply addHarvestGas_each_frame.
Qed.

(** *** Candidate building and the treasury fee *)

Lemma mapStrategyToHarvestable_Ok CONFIG web3 c t h :
  mapStrategyToHarvestable CONFIG web3 c = (t, Ok h) ->
  t = [ Read (Q_getHarvestable (_address c));
        Read (Q_performanceTreasuryFee (_address c));
        Read (Q_performanceTreasuryFee (_address c)) ] /\
  strategy h = c /\ feePairRead web3 h /\ draft h /\
  call_getHarvestable web3 (_address c) = Ok (harvestable h) /\
  call_performanceTreasuryFee web3 (_address c) 0%nat = Ok (treasuryFee h).
Proof.
  unfold mapStrategyToHarvestable, call, feePairRead, draft, toBN.
  destruct (call_getHarvestable web3 (_address c)) as [q|e]; simpl;
    [|discriminate].
  destruct (call_performanceTreasuryFee web3 (_address c) 0%nat) as [f|e] eqn:Hf;
    simpl; [|discriminate].
  destruct (call_performanceTreasuryFee web3 (_address c) 1%nat) as [m|e] eqn:Hm;
    simpl; [|discriminate].
  intros H. inversion H; subst. simpl.
  repeat split; solve [reflexivity|assumption].
Qed.

Lemma Forall2_Forall_r {A B} (R : A -> B -> Prop) (Q : B -> Prop) xs ys :
  (forall x y, R x y -> Q y) -> Forall2 R xs ys -> Forall Q ys.
Proof. intros HRQ H. induction H; constructor; eauto. Qed.

Lemma Forall_Forall2_r {A B} (P : A -> Prop) (R : A -> B -> Prop)
      (Q : B -> Prop) xs ys :
  (forall x y, P x -> R x y -> Q y) ->
  Forall P xs -> Forall2 R xs ys -> Forall Q ys.
Proof.
  intros HQ HP H. induction H; [constructor|].
  inversion HP; subst. constructor; eauto.
Qed.

Lemma createHarvests_Ok CONFIG web3 contracts t hs :
  createHarvests CONFIG web3 contracts = (t, Ok hs) ->
  Forall2 (fun c h => strategy h = c) (allStrategies contracts) hs /\
  Forall (fun h => feePairRead web3 h /\ draft h) hs.
Proof.
  intros H. apply stage_Ok in H. destruct H as [H _]. split.
  - eapply Forall2_impl; [|exact H]. intros c h Hc. cbv beta in Hc.
    destruct (mapStrategyToHarvestable CONFIG web3 c) as [tc r] eqn:Hm.
    simpl in Hc. subst r. apply mapStrategyToHarvestable_Ok in Hm. tauto.
  - eapply Forall2_Forall_r; [|exact H]. intros c h Hc. cbv beta in Hc.
    destruct (mapStrategyToHarvestable CONFIG web3 c) as [tc r] eqn:Hm.
    simpl in Hc. subst r. apply mapStrategyToHarvestable_Ok in Hm. tauto.
Qed.

Lemma sameBase_feePairRead web3 i o :
  sameBase i o -> feePairRead web3 i -> feePairRead web3 o.
Proof.
  intros (Hs & _ & _ & Hf & Hm) [H0 H1]. unfold feePairRead.
  rewrite Hs, Hf, Hm. split; assumption.
Qed.

(** Stages 1 to 4 resolved: every record is fully built and still has the
    fee pair stage 1 gave it. *)
Lemma evaluation_Ok CONFIG web3 contracts t hs :
  evaluation CONFIG web3 contracts = (t, Ok hs) ->
  length hs = length (allStrategies contracts) /\
  Forall (fun h => fullyBuilt h /\ feePairRead web3 h) hs.
Proof.
  unfold evaluation. intros H.
  apply bind_inv_Ok in H. destruct H as (t1 & hs1 & t1' & H1 & H & _).
  apply bind_inv_Ok in H. destruct H as (t2 & hs2 & t2' & H2 & H & _).
  apply bind_inv_Ok in H. destruct H as (t3 & hs3 & t3' & H3 & H4 & _).
  apply createHarvests_Ok in H1. destruct H1 as [L1 F1].
  apply addHarvestTx_frame in H2.
  apply addHarvestGain_frame in H3.
  apply addHarvestGas_frame in H4.
  split.
  - rewrite <- (Forall2_length H4), <- (Forall2_length H3),
      <- (Forall2_length H2). symmetry. apply (Forall2_length L1).
  - assert (F2 : Forall (fun h => feePairRead web3 h /\ tx h <> None) hs2).
    { eapply Forall_Forall2_r; [|exact F1|exact H2].
      intros i o [Hs _] (Hb & _ & _ & _ & _ & Ht).
      split; [eapply sameBase_feePairRead; eassumption|congruence]. }
    assert (F3 : Forall (fun h => feePairRead web3 h /\ tx h <> None /\
                                  gainWAVAX h <> None /\ gainUSDT h <> None) hs3).
    { eapply Forall_Forall2_r; [|exact F2|exact H3].
      intros i o [Hs Ht] (Hb & Ht' & _ & _ & Hgw & Hgu).
      split; [eapply sameBase_feePairRead; eassumption|].
      repeat split; congruence. }
    eapply Forall_Forall2_r; [|exact F3|exact H4].
    intros i o (Hs & Ht & Hgw & Hgu) (Hb & Ht' & Hgw' & Hgu' & Hg & Hgp).
    split; [|eapply sameBase_feePairRead; eassumption].
    unfold fullyBuilt. repeat split; congruence.
Qed.

(** The fee pair of a record is equal exactly when the two calls on its
    strategy answered the same. *)
Lemma feePairRead_sameFee web3 h :
  feePairRead web3 h ->
  (sameFee h <->
   call_performanceTreasuryFee web3 (_address (strategy h)) 0%nat =
   call_performanceTreasuryFee web3 (_address (strategy h)) 1%nat).
Proof.
  intros [H0 H1]. unfold sameFee. rewrite H0, H1. split.
  - intros ->. reflexivity.
  - intros H. inversion H. reflexivity.
Qed.

Lemma sameFee_treasuryGain h :
  sameFee h -> treasuryMax h <> 0 -> treasuryGainInNative h = gainInNative h.
Proof.
  unfold sameFee, treasuryGainInNative, gainInNative. intros Hs Hm.
  destruct (gainWAVAX h) as [gw|]; [|reflexivity].
  rewrite Hs. apply N.div_mul. assumption.
Qed.

(** *** The evaluation stages, seen from the pipeline *)

Lemma Forall2_with_l {A B} (P : A -> Prop) (R : A -> B -> Prop) xs ys :
  Forall P xs -> Forall2 R xs ys -> Forall2 (fun x y => P x /\ R x y) xs ys.
Proof.
  intros HP H. induction H; [constructor|].
  inversion HP; subst. constructor; auto.
Qed.

(** Attach-transaction has nothing to await: it always resolves. *)
Lemma addHarvestTx_total hs :
  exists out, addHarvestTx hs = ([], Ok out).
Proof.
  exists (map (fun h =>
    {| strategy := strategy h; name := name h; harvestable := harvestable h;
       treasuryFee := treasuryFee h; treasuryMax := treasuryMax h;
       tx := Some (HarvestCall (strategy h));
       gainWAVAX := gainWAVAX h; gainUSDT := gainUSDT h;
       gas := gas h; gasPrice := gasPrice h |}) hs).
  unfold addHarvestTx. erewrite stage_total.
  - f_equal. unfold stage_trace. induction hs; simpl; auto.
  - induction hs; simpl; constructor; auto.
Qed.

(** In the pipeline each stage meets records that do not have its fields
    yet, so each stage retains every field of every record. *)
Lemma evaluation_stages_retain CONFIG web3 contracts t1 hs1 t2 hs2 t3 hs3 t4 hs4 :
  createHarvests CONFIG web3 contracts = (t1, Ok hs1) ->
  addHarvestTx hs1 = (t2, Ok hs2) ->
  addHarvestGain web3 hs2 = (t3, Ok hs3) ->
  addHarvestGas CONFIG web3 hs3 = (t4, Ok hs4) ->
  Forall2 retains hs1 hs2 /\ Forall2 retains hs2 hs3 /\ Forall2 retains hs3 hs4.
Proof.
  intros H1 H2 H3 H4.
  apply createHarvests_Ok in H1. destruct H1 as [_ F1].
  apply addHarvestTx_frame in H2.
  apply addHarvestGain_frame in H3.
  apply addHarvestGas_frame in H4.
  assert (D1 : Forall draft hs1).
  { eapply Forall_impl; [|exact F1]. intros h [_ Hd]. exact Hd. }
  assert (D2 : Forall (fun h => gainWAVAX h = None /\ gainUSDT h = None /\
                                gas h = None /\ gasPrice h = None) hs2).
  { eapply Forall_Forall2_r; [|exact D1|exact H2].
    intros i o (_ & Hgw & Hgu & Hg & Hgp) (_ & Hgw' & Hgu' & Hg' & Hgp' & _).
    repeat split; congruence. }
  assert (D3 : Forall (fun h => gas h = None /\ gasPrice h = None) hs3).
  { eapply Forall_Forall2_r; [|exact D2|exact H3].
    intros i o (_ & _ & Hg & Hgp) (_ & _ & Hg' & Hgp' & _).
    split; congruence. }
  split; [|split].
  - eapply Forall2_impl; [|exact (Forall2_with_l _ _ _ _ D1 H2)].
    intros i o [(Ht & _) F]. apply frame_tx_retains; assumption.
  - eapply Forall2_impl; [|exact (Forall2_with_l _ _ _ _ D2 H3)].
    intros i o [(Hgw & Hgu & _) F]. apply frame_gain_retains; assumption.
  - eapply Forall2_impl; [|exact (Forall2_with_l _ _ _ _ D3 H4)].
    intros i o [(Hg & Hgp) F]. apply frame_gas_retains; assumption.
Qed.

(** C9 (frame of the evaluation stages).  When attach-transaction,
    attach-gain or attach-gas resolves, its output has the length and the
    order of its input; each output record has every field of its input
    record unchanged except the fields the stage sets, which are present
    afterwards; and where the input record did not have those fields yet,
    as is the case for every record in the pipeline, every field it had
    is retained with its value. *)
Theorem stages_keep_length_order_and_fields
        (CONFIG : Config) (web3 : Web3) (hs : list Harvest) :
  (forall t out, addHarvestTx hs = (t, Ok out) ->
     length out = length hs /\
     Forall2 frame_tx hs out /\
     Forall2 (fun i o => tx i = None -> retains i o) hs out) /\
  (forall t out, addHarvestGain web3 hs = (t, Ok out) ->
     length out = length hs /\
     Forall2 frame_gain hs out /\
     Forall2 (fun i o => gainWAVAX i = None -> gainUSDT i = None -> retains i o)
             hs out) /\
  (forall t out, addHarvestGas CONFIG web3 hs = (t, Ok out) ->
     length out = length hs /\
     Forall2 frame_gas hs out /\
     Forall2 (fun i o => gas i = None -> gasPrice i = None -> retains i o)
             hs out) /\
  (forall contracts t1 t2 hs2 t3 hs3 t4 hs4,
     createHarvests CONFIG web3 contracts = (t1, Ok hs) ->
     addHarvestTx hs = (t2, Ok hs2) ->
     addHarvestGain web3 hs2 = (t3, Ok hs3) ->
     addHarvestGas CONFIG web3 hs3 = (t4, Ok hs4) ->
     Forall2 retains hs hs2 /\ Forall2 retains hs2 hs3 /\
     Forall2 retains hs3 hs4).
Proof.
  split; [|split; [|split]].
  - intros t out H.
    pose proof (addHarvestTx_frame _ _ _ H) as F.
    split; [symmetry; eapply Forall2_length; exact F|].
    split; [exact F|].
    eapply Forall2_impl; [|exact F]. apply frame_tx_retains.
  - intros t out H.
    pose proof (addHarvestGain_frame _ _ _ _ H) as F.
    split; [symmetry; eapply Forall2_length; exact F|].
    split; [exact F|].
    eapply Forall2_impl; [|exact F]. apply frame_gain_retains.
  - intros t out H.
    pose proof (addHarvestGas_frame _ _ _ _ _ H) as F.
    split; [symmetry; eapply Forall2_length; exact F|].
    split; [exact F|].
    eapply Forall2_impl; [|exact F]. apply frame_gas_retains.
  - intros contracts t1 t2 hs2 t3 hs3 t4 hs4 H1 H2 H3 H4.
    eapply evaluation_stages_retain; eassumption.
Qed.

(** C10, as the code has it (two calls of one accessor).  Both fee values
    of a record come from [performanceTreasuryFee()] on the record's
    strategy, by two calls made one after the other: [treasuryFee] is the
    first answer and [treasuryMax] the second.  After candidate building
    and still at the filter they are equal exactly when the two calls
    answered the same; and for a fully-built record whose two values are
    equal and not zero, the filter's treasury gain is [gainWAVAX] itself
    and the filter's verdict is [gas * gasPrice < gainWAVAX]. *)
Theorem treasury_fee_pair_is_two_calls_of_one_accessor
        (CONFIG : Config) (web3 : Web3) (contracts : list StrategyTarget) :
  (forall c t h,
     mapStrategyToHarvestable CONFIG web3 c = (t, Ok h) ->
     t = [ Read (Q_getHarvestable (_address c));
           Read (Q_performanceTreasuryFee (_address c));
           Read (Q_performanceTreasuryFee (_address c)) ] /\
     call_performanceTreasuryFee web3 (_address c) 0%nat = Ok (treasuryFee h) /\
     call_performanceTreasuryFee web3 (_address c) 1%nat = Ok (treasuryMax h)) /\
  (forall t hs,
     createHarvests CONFIG web3 contracts = (t, Ok hs) ->
     Forall (fun h =>
               treasuryFee h = treasuryMax h <->
               call_performanceTreasuryFee web3 (_address (strategy h)) 0%nat =
               call_performanceTreasuryFee web3 (_address (strategy h)) 1%nat)
            hs) /\
  (forall t hs,
     evaluation CONFIG web3 contracts = (t, Ok hs) ->
     Forall (fun h =>
               treasuryFee h = treasuryMax h <->
               call_performanceTreasuryFee web3 (_address (strategy h)) 0%nat =
               call_performanceTreasuryFee web3 (_address (strategy h)) 1%nat)
            hs) /\
  (forall h,
     fullyBuilt h -> treasuryFee h = treasuryMax h -> treasuryMax h <> 0 ->
     treasuryGainInNative h = gainInNative h /\
     costVsGain h =
       ([ Log (L_comparing (_address (strategy h)));
          Log (L_gasCost (costInNative h));
          Log (L_treasuryGain (gainInNative h)) ],
        Ok (costInNative h <? gainInNative h))).
Proof.
  split; [|split; [|split]].
  - intros c t h H. apply mapStrategyToHarvestable_Ok in H.
    destruct H as (Ht & Hs & [H0 H1] & _ & _ & _). subst c.
    split; [exact Ht|]. split; assumption.
  - intros t hs H. apply createHarvests_Ok in H. destruct H as [_ H].
    eapply Forall_impl; [|exact H]. intros h [Hp _].
    apply (feePairRead_sameFee web3 h Hp).
  - intros t hs H. apply evaluation_Ok in H. destruct H as [_ H].
    eapply Forall_impl; [|exact H]. intros h [_ Hp].
    apply (feePairRead_sameFee web3 h Hp).
  - intros h Hb Hs Hm.
    pose proof (sameFee_treasuryGain h Hs Hm) as Hg.
    split; [exact Hg|].
    rewrite (costVsGain_fullyBuilt h Hb Hm).
    unfold comparison_lines, profitable. rewrite Hg. reflexivity.
Qed.

(** *** Strategy discovery *)

Lemma initContracts_from_resolved CONFIG web3 wants : forall cache,
  Forall (resolves CONFIG web3) wants ->
  initContracts_from CONFIG web3 cache wants =
    (flat_map (registry_reads CONFIG) wants,
     Ok (cache ++ flat_map (accepted CONFIG web3) wants)).
Proof.
  induction wants as [|w wants IH]; intros cache Hall.
  - simpl. rewrite app_nil_r. reflexivity.
  - inversion Hall as [|? ? (g & s & Hg & Hs) Hrest]; subst.
    cbn [initContracts_from flat_map]. unfold accepted at 1, call.
    rewrite Hg, Hs. cbn [bind existsb orb].
    destruct (isAddress web3 g), (isAddress web3 s); cbn [negb orb andb];
      rewrite (IH _ Hrest); cbn [app fst snd registry_reads];
      rewrite <- ?app_assoc; reflexivity.
Qed.

(** A registry read that rejects ends discovery: what was collected so far
    is dropped. *)
Lemma initContracts_from_rejected CONFIG web3 wants : forall cache w,
  In w wants -> ~ resolves CONFIG web3 w ->
  exists t e, initContracts_from CONFIG web3 cache wants = (t, Throw e).
Proof.
  induction wants as [|w0 wants IH]; intros cache w Hin Hno; [contradiction|].
  cbn [initContracts_from]. unfold call.
  destruct (call_globes web3 (CONTROLLER CONFIG) w0) as [g|e] eqn:Hg;
    [|eexists; eexists; reflexivity].
  destruct (call_strategies web3 (CONTROLLER CONFIG) w0) as [s|e] eqn:Hs;
    [|eexists; eexists; reflexivity].
  destruct Hin as [->|Hin]; [exfalso; apply Hno; exists g, s; auto|].
  cbn [bind].
  match goal with
  | |- context [if ?b then _ else _] => destruct b
  end.
  - destruct (IH cache w Hin Hno) as (t & e & H). rewrite H.
    eexists; eexists; reflexivity.
  - destruct (IH (cache ++
        [{| globes := map (mkContract SNOWGLOBE_ABI) [g];
            strategies := map (mkContract STRATEGY_ABI) [s] |}]) w Hin Hno)
      as (t & e & H).
    rewrite H. eexists; eexists; reflexivity.
Qed.

(** C8 (strategy discovery).  When the registry answers for every tracked
    asset, discovery returns without error and without a console line;
    its output is, in the order of the input, one target for each asset
    whose vault address and strategy address are both well-formed, and
    nothing for an asset one of whose addresses is not. *)
Theorem discovery_accepts_valid_in_order
        (CONFIG : Config) (web3 : Web3) (wants : list Address) :
  Forall (resolves CONFIG web3) wants ->
  initContracts CONFIG web3 wants =
    (flat_map (registry_reads CONFIG) wants,
     Ok (flat_map (accepted CONFIG web3) wants)) /\
  (forall target,
     In target (flat_map (accepted CONFIG web3) wants) <->
     exists w g s,
       In w wants /\
       call_globes web3 (CONTROLLER CONFIG) w = Ok g /\
       call_strategies web3 (CONTROLLER CONFIG) w = Ok s /\
       isAddress web3 g = true /\ isAddress web3 s = true /\
       target = {| globes := [mkContract SNOWGLOBE_ABI g];
                   strategies := [mkContract STRATEGY_ABI s] |}) /\
  (forall w g s,
     call_globes web3 (CONTROLLER CONFIG) w = Ok g ->
     call_strategies web3 (CONTROLLER CONFIG) w = Ok s ->
     isAddress web3 g = false \/ isAddress web3 s = false ->
     accepted CONFIG web3 w = []).
Proof.
  intros Hall. split; [|split].
  - unfold initContracts.
    rewrite (initContracts_from_resolved CONFIG web3 wants [] Hall).
    reflexivity.
  - intros target. rewrite in_flat_map. split.
    + intros (w & Hin & Ht). unfold accepted in Ht.
      destruct (call_globes web3 (CONTROLLER CONFIG) w) as [g|] eqn:Hg;
        [|contradiction].
      destruct (call_strategies web3 (CONTROLLER CONFIG) w) as [s|] eqn:Hs;
        [|contradiction].
      destruct (isAddress web3 g) eqn:Vg; [|contradiction].
      destruct (isAddress web3 s) eqn:Vs; [|contradiction].
      destruct Ht as [<-|[]]. exists w, g, s. auto 10.
    + intros (w & g & s & Hin & Hg & Hs & Vg & Vs & ->).
      exists w. split; [assumption|]. unfold accepted.
      rewrite Hg, Hs, Vg, Vs. left. reflexivity.
  - intros w g s Hg Hs Hbad. unfold accepted. rewrite Hg, Hs.
    destruct Hbad as [H|H]; rewrite H; [reflexivity|].
    rewrite andb_false_r. reflexivity.
Qed.

(** *** Which events a computation can cause *)

Section TraceInvariant.

Variable P : Event -> Prop.

Lemma bind_trace {A B} (m : M A) (f : A -> M B) :
  Forall P (fst m) -> (forall a, Forall P (fst (f a))) ->
  Forall P (fst (bind m f)).
Proof.
  intros Hm Hf. destruct m as [t1 [a|e]]; simpl in *; [|assumption].
  specialize (Hf a). destruct (f a) as [t2 r]. simpl in *.
  apply Forall_app. split; assumption.
Qed.

Lemma catch_trace {A} (m : M A) (h : Error -> M A) :
  Forall P (fst m) -> (forall e, Forall P (fst (h e))) ->
  Forall P (fst (catch m h)).
Proof.
  intros Hm Hh. destruct m as [t1 [a|e]]; simpl in *; [assumption|].
  specialize (Hh e). destruct (h e) as [t2 r]. simpl in *.
  apply Forall_app. split; assumption.
Qed.

Lemma concat_trace (ts : list (list Event)) :
  Forall (Forall P) ts -> Forall P (List.concat ts).
Proof.
  induction 1; simpl; [constructor|]. apply Forall_app. split; assumption.
Qed.

Lemma promise_all_trace {A B} (f : A -> M B) xs :
  (forall x, Forall P (fst (f x))) ->
  Forall P (fst (promise_all (map f xs))).
Proof.
  intros Hf. unfold promise_all. cbn [fst]. apply concat_trace.
  induction xs; simpl; constructor; auto.
Qed.

Lemma stage_trace_inv {A B} s (f : A -> M B) xs :
  (forall x, Forall P (fst (f x))) ->
  P (LogError (E_stage (stage_message s))) ->
  Forall P (fst (tagged s (promise_all (map f xs)))).
Proof.
  intros Hf Hs. unfold tagged. apply catch_trace.
  - apply promise_all_trace. assumption.
  - intros e. simpl. constructor; [assumption|constructor].
Qed.

Lemma filterM_trace {A} (p : A -> M bool) xs :
  (forall x, Forall P (fst (p x))) -> Forall P (fst (filterM p xs)).
Proof.
  intros Hp. induction xs as [|x xs IH]; simpl; [constructor|].
  apply bind_trace; [apply Hp|]. intros b.
  apply bind_trace; [apply IH|]. intros kept. constructor.
Qed.

Lemma mapi_from_trace {A B} (f : A -> nat -> M B) xs : forall k,
  (forall x i, Forall P (fst (f x i))) ->
  Forall (Forall P) (map fst (mapi_from k f xs)).
Proof.
  induction xs as [|x xs IH]; intros k Hf; simpl; constructor; auto.
Qed.

End TraceInvariant.

(** *** The executor *)

Lemma map_mapi_from {A B C} (g : B -> C) (f : A -> nat -> B) xs : forall k,
  map g (mapi_from k f xs) = mapi_from k (fun x i => g (f x i)) xs.
Proof.
  induction xs as [|x xs IH]; intros k; simpl; [reflexivity|].
  rewrite IH. reflexivity.
Qed.

Lemma mapi_from_length {A B} (f : A -> nat -> B) xs : forall k,
  length (mapi_from k f xs) = length xs.
Proof.
  induction xs as [|x xs IH]; intros k; simpl; [reflexivity|].
  rewrite IH. reflexivity.
Qed.

Lemma nth_error_mapi_from {A B} (f : A -> nat -> B) xs : forall k i,
  nth_error (mapi_from k f xs) i =
  option_map (fun x => f x (k + i)%nat) (nth_error xs i).
Proof.
  induction xs as [|x xs IH]; intros k i.
  - destruct i; reflexivity.
  - destruct i as [|i]; simpl.
    + rewrite Nat.add_0_r. reflexivity.
    + rewrite IH. rewrite Nat.add_succ_r. reflexivity.
Qed.

Lemma mapi_from_ext {A B} (f g : A -> nat -> B) xs : forall k,
  (forall x i, In x xs -> f x i = g x i) ->
  mapi_from k f xs = mapi_from k g xs.
Proof.
  induction xs as [|x xs IH]; intros k H; simpl; [reflexivity|].
  rewrite H by (left; reflexivity). rewrite IH; [reflexivity|].
  intros y i Hy. apply H. right. assumption.
Qed.

Lemma executeHarvestTx_test CONFIG web3 nonce h i :
  TEST_MODE CONFIG = true ->
  executeHarvestTx CONFIG web3 nonce h i =
    ([Log (L_wouldHarvest (_address (strategy h)))], Ok None).
Proof. intros Ht. unfold executeHarvestTx. rewrite Ht. reflexivity. Qed.

Lemma executeHarvestTx_live CONFIG web3 nonce h i t :
  TEST_MODE CONFIG = false -> tx h = Some t ->
  executeHarvestTx CONFIG web3 nonce h i =
    ([ Log (L_harvesting (_address (strategy h)));
       Send t (WALLET_ADDRESS CONFIG) (gas h) (gasPrice h) (nonce + N.of_nat i) ],
     match send web3 t (WALLET_ADDRESS CONFIG) (gas h) (gasPrice h)
                (nonce + N.of_nat i) with
     | Ok receipt => Ok (Some receipt)
     | Throw e => Throw e
     end).
Proof.
  intros Hm Ht. unfold executeHarvestTx. rewrite Hm, Ht. simpl.
  destruct (send web3 t (WALLET_ADDRESS CONFIG) (gas h) (gasPrice h)
                 (nonce + N.of_nat i)); reflexivity.
Qed.

Lemma executeHarvestTx_live_no_tx CONFIG web3 nonce h i :
  TEST_MODE CONFIG = false -> tx h = None ->
  executeHarvestTx CONFIG web3 nonce h i =
    ([Log (L_harvesting (_address (strategy h)))], Throw (TypeError "tx")).
Proof. intros Hm Ht. unfold executeHarvestTx. rewrite Hm, Ht. reflexivity. Qed.

(** The executor's trace holds no read of the transaction count besides
    the one [doHarvesting] starts with. *)
Lemma executeHarvestTx_no_txCountRead CONFIG web3 nonce h i :
  Forall (fun ev => is_txCountRead ev = false)
         (fst (executeHarvestTx CONFIG web3 nonce h i)).
Proof.
  unfold executeHarvestTx. destruct (TEST_MODE CONFIG); simpl.
  - repeat constructor.
  - destruct (tx h) as [t|]; simpl; [|repeat constructor].
    destruct (send web3 t (WALLET_ADDRESS CONFIG) (gas h) (gasPrice h)
                   (nonce + N.of_nat i)); simpl; repeat constructor.
Qed.

Lemma filter_none {A} (p : A -> bool) xs :
  Forall (fun x => p x = false) xs -> filter p xs = [].
Proof.
  induction 1 as [|x xs Hx _ IH]; simpl; [reflexivity|]. rewrite Hx. exact IH.
Qed.

Lemma filter_concat {A} (p : A -> bool) (xss : list (list A)) :
  filter p (List.concat xss) = List.concat (map (filter p) xss).
Proof.
  induction xss as [|xs xss IH]; simpl; [reflexivity|].
  rewrite filter_app, IH. reflexivity.
Qed.


(** The executor never rejects once the transaction count is read: it
    pairs the settled outcomes, position by position, with its input. *)
Lemma doHarvesting_Ok CONFIG web3 hs base :
  getTransactionCount web3 (WALLET_ADDRESS CONFIG) = Ok base ->
  doHarvesting CONFIG web3 hs =
    (Read (Q_getTransactionCount (WALLET_ADDRESS CONFIG)) ::
       List.concat (mapi (fun h i => fst (executeHarvestTx CONFIG web3 base h i)) hs),
     Ok (mapi (outcome CONFIG web3 base) hs, hs)).
Proof.
  intros Hn. unfold doHarvesting, call, promise_allSettled, mapi, outcome.
  rewrite Hn. cbn [bind ret]. rewrite !map_mapi_from.
  rewrite app_nil_r. reflexivity.
Qed.

Lemma doHarvesting_Throw CONFIG web3 hs e :
  getTransactionCount web3 (WALLET_ADDRESS CONFIG) = Throw e ->
  doHarvesting CONFIG web3 hs =
    ([Read (Q_getTransactionCount (WALLET_ADDRESS CONFIG))], Throw e).
Proof. intros Hn. unfold doHarvesting, call. rewrite Hn. reflexivity. Qed.

Lemma doHarvesting_reads_count_once CONFIG web3 hs :
  length (filter is_txCountRead (fst (doHarvesting CONFIG web3 hs))) = 1%nat.
Proof.
  destruct (getTransactionCount web3 (WALLET_ADDRESS CONFIG)) as [base|e] eqn:Hn.
  - rewrite (doHarvesting_Ok _ _ _ _ Hn). cbn [fst filter is_txCountRead].
    rewrite filter_none; [reflexivity|].
    apply concat_trace. unfold mapi.
    rewrite <- (map_mapi_from fst (executeHarvestTx CONFIG web3 base)).
    apply mapi_from_trace. intros. apply executeHarvestTx_no_txCountRead.
  - rewrite (doHarvesting_Throw _ _ _ _ Hn). reflexivity.
Qed.

Lemma submissions_live CONFIG web3 base hs : forall k,
  TEST_MODE CONFIG = false ->
  submissions
    (List.concat (mapi_from k (fun h i => fst (executeHarvestTx CONFIG web3 base h i)) hs)) =
  List.concat
    (mapi_from k
       (fun h i =>
          match tx h with
          | Some t => [Send t (WALLET_ADDRESS CONFIG) (gas h) (gasPrice h)
                            (base + N.of_nat i)]
          | None => []
          end) hs).
Proof.
  intros k Hm. unfold submissions. rewrite filter_concat, map_mapi_from.
  f_equal. apply mapi_from_ext. intros h i _.
  destruct (tx h) as [t|] eqn:Ht.
  - rewrite (executeHarvestTx_live _ _ _ _ _ _ Hm Ht). reflexivity.
  - rewrite (executeHarvestTx_live_no_tx _ _ _ _ _ Hm Ht). reflexivity.
Qed.

Lemma submissions_test CONFIG web3 base hs : forall k,
  TEST_MODE CONFIG = true ->
  submissions
    (List.concat (mapi_from k (fun h i => fst (executeHarvestTx CONFIG web3 base h i)) hs)) = [].
Proof.
  intros k Hm. unfold submissions. apply filter_none. apply concat_trace.
  rewrite <- (map_mapi_from fst (executeHarvestTx CONFIG web3 base)).
  apply mapi_from_trace. intros h i.
  rewrite (executeHarvestTx_test _ _ _ _ _ Hm). repeat constructor.
Qed.

(** *** The reporter *)

Lemma logHarvestingResult_report CONFIG r h :
  logHarvestingResult CONFIG r (Some h) = (report CONFIG (h, r), Ok tt).
Proof.
  unfold logHarvestingResult, report, success_lines, failure_lines.
  destruct r as [[v|]|e]; simpl; destruct (TEST_MODE CONFIG); reflexivity.
Qed.

Lemma logHarvestingResults_from_report CONFIG rs : forall pre hs,
  length rs = length hs ->
  logHarvestingResults_from CONFIG (length pre) rs (pre ++ hs) =
    (flat_map (report CONFIG) (combine hs rs), Ok tt).
Proof.
  induction rs as [|r rs IH]; intros pre hs Hlen.
  - destruct hs; [reflexivity|discriminate].
  - destruct hs as [|h hs]; [discriminate|].
    cbn [logHarvestingResults_from combine flat_map].
    rewrite nth_error_app2 by apply Nat.le_refl.
    rewrite Nat.sub_diag. cbn [nth_error].
    rewrite (bind_Ok _ _ _ _ (logHarvestingResult_report CONFIG r h)).
    replace (pre ++ h :: hs) with ((pre ++ [h]) ++ hs)
      by (rewrite <- app_assoc; reflexivity).
    replace (S (length pre)) with (length (pre ++ [h]))
      by (rewrite length_app; simpl; apply Nat.add_1_r).
    rewrite IH by (simpl in Hlen; congruence). reflexivity.
Qed.

Lemma logHarvestingResults_report CONFIG rs hs :
  length rs = length hs ->
  logHarvestingResults CONFIG (rs, hs) =
    (flat_map (report CONFIG) (combine hs rs), Ok tt).
Proof.
  intros Hlen. unfold logHarvestingResults.
  apply (logHarvestingResults_from_report CONFIG rs [] hs Hlen).
Qed.

Lemma concat_mapi_singleton {A B} (f : A -> nat -> B) xs : forall k,
  List.concat (mapi_from k (fun x i => [f x i]) xs) = mapi_from k f xs.
Proof.
  induction xs as [|x xs IH]; intros k; simpl; [reflexivity|].
  rewrite IH. reflexivity.
Qed.

(** C3 (nonces).  Once the operating wallet's transaction count [base] is
    read, the executor resolves with one settled outcome per input
    record, in input order, paired with the unchanged input; its trace
    holds exactly one read of the transaction count; and when it submits
    (dry-run off, every record carrying its transaction) the i-th
    submission is the i-th record's, with nonce [base + i], whatever the
    submissions answer.  With dry-run on there is no submission to
    number. *)
Theorem executor_reads_count_once_and_numbers_in_order
        (CONFIG : Config) (web3 : Web3) (hs : list Harvest) (base : N) :
  getTransactionCount web3 (WALLET_ADDRESS CONFIG) = Ok base ->
  exists tr results,
    doHarvesting CONFIG web3 hs = (tr, Ok (results, hs)) /\
    length (filter is_txCountRead tr) = 1%nat /\
    length results = length hs /\
    (forall i h, nth_error hs i = Some h ->
       nth_error results i = Some (outcome CONFIG web3 base h i)) /\
    (TEST_MODE CONFIG = false ->
     Forall (fun h => tx h <> None) hs ->
     length (submissions tr) = length hs /\
     forall i h t,
       nth_error hs i = Some h -> tx h = Some t ->
       nth_error (submissions tr) i =
         Some (Send t (WALLET_ADDRESS CONFIG) (gas h) (gasPrice h)
                    (base + N.of_nat i))) /\
    (TEST_MODE CONFIG = true -> submissions tr = []).
Proof.
  intros Hn. eexists. eexists.
  split; [apply (doHarvesting_Ok _ _ _ _ Hn)|].
  split.
  { pose proof (doHarvesting_reads_count_once CONFIG web3 hs) as H.
    rewrite (doHarvesting_Ok _ _ _ _ Hn) in H. exact H. }
  split; [apply mapi_from_length|].
  split.
  { intros i h Hi. unfold mapi. rewrite nth_error_mapi_from, Hi. reflexivity. }
  split.
  2:{ intros Hm. change (submissions (?a :: ?l)) with (submissions l).
      apply submissions_test. assumption. }
  intros Hm Htx.
  assert (Hs : submissions
            (Read (Q_getTransactionCount (WALLET_ADDRESS CONFIG)) ::
             List.concat (mapi (fun h i => fst (executeHarvestTx CONFIG web3 base h i)) hs)) =
          mapi (fun h i =>
                  Send (match tx h with Some t => t | None => HarvestCall (strategy h) end)
                       (WALLET_ADDRESS CONFIG) (gas h) (gasPrice h)
                       (base + N.of_nat i)) hs).
  { unfold mapi. change (submissions (?a :: ?l)) with (submissions l).
    rewrite (submissions_live _ _ _ _ _ Hm).
    rewrite (mapi_from_ext _
               (fun h i =>
                  [Send (match tx h with Some t => t | None => HarvestCall (strategy h) end)
                        (WALLET_ADDRESS CONFIG) (gas h) (gasPrice h)
                        (base + N.of_nat i)])).
    - apply concat_mapi_singleton.
    - intros h i Hin. rewrite Forall_forall in Htx. specialize (Htx h Hin).
      destruct (tx h); [reflexivity|contradiction]. }
  rewrite Hs. split; [apply mapi_from_length|].
  intros i h t Hi Ht. unfold mapi.
  rewrite nth_error_mapi_from, Hi. simpl. rewrite Ht. reflexivity.
Qed.

(** C5 (independent settlement).  Once the transaction count is read the
    executor never rejects: the outcome at position i is the i-th
    record's own, and with dry-run off it is decided by that record's
    submission alone (fulfilled with the receipt, or rejected with that
    submission's reason); the reporter then prints, in input order, for
    each record the success summary if its own outcome is a receipt and
    the failure summary with its own reason if it was rejected. *)
Theorem submissions_settle_independently
        (CONFIG : Config) (web3 : Web3) (hs : list Harvest) (base : N) :
  getTransactionCount web3 (WALLET_ADDRESS CONFIG) = Ok base ->
  exists tr results,
    doHarvesting CONFIG web3 hs = (tr, Ok (results, hs)) /\
    length results = length hs /\
    (forall i h, nth_error hs i = Some h ->
       nth_error results i = Some (outcome CONFIG web3 base h i)) /\
    (TEST_MODE CONFIG = false ->
     forall h i t, tx h = Some t ->
       outcome CONFIG web3 base h i =
         match send web3 t (WALLET_ADDRESS CONFIG) (gas h) (gasPrice h)
                    (base + N.of_nat i) with
         | Ok receipt => Fulfilled (Some receipt)
         | Throw e => Rejected e
         end) /\
    logHarvestingResults CONFIG (results, hs) =
      (flat_map (report CONFIG) (combine hs results), Ok tt) /\
    (TEST_MODE CONFIG = false ->
     forall h,
       (forall receipt,
          report CONFIG (h, Fulfilled (Some receipt)) =
            success_lines CONFIG h (Some receipt)) /\
       (forall e,
          report CONFIG (h, Rejected e) = failure_lines h (Some e))).
Proof.
  intros Hn. eexists. eexists.
  split; [apply (doHarvesting_Ok _ _ _ _ Hn)|].
  split; [apply mapi_from_length|].
  split.
  { intros i h Hi. unfold mapi. rewrite nth_error_mapi_from, Hi. reflexivity. }
  split.
  { intros Hm h i t Ht. unfold outcome.
    rewrite (executeHarvestTx_live _ _ _ _ _ _ Hm Ht). cbn [snd].
    destruct (send web3 t (WALLET_ADDRESS CONFIG) (gas h) (gasPrice h)
                   (base + N.of_nat i)); reflexivity. }
  split.
  { apply logHarvestingResults_report. apply mapi_from_length. }
  intros Hm h. unfold report. rewrite Hm. split; reflexivity.
Qed.

(** *** Dry-run *)

Lemma mapi_from_const {A B} (g : A -> B) xs : forall k,
  mapi_from k (fun x _ => g x) xs = map g xs.
Proof.
  induction xs as [|x xs IH]; intros k; simpl; [reflexivity|].
  rewrite IH. reflexivity.
Qed.

Lemma outcome_test CONFIG web3 base h i :
  TEST_MODE CONFIG = true -> outcome CONFIG web3 base h i = Fulfilled None.
Proof.
  intros Hm. unfold outcome. rewrite (executeHarvestTx_test _ _ _ _ _ Hm).
  reflexivity.
Qed.

Lemma report_test_all CONFIG hs :
  TEST_MODE CONFIG = true ->
  flat_map (report CONFIG) (combine hs (map (fun _ => Fulfilled None) hs)) =
  flat_map (fun h => success_lines CONFIG h None) hs.
Proof.
  intros Hm. induction hs as [|h hs IH]; [reflexivity|].
  cbn [map combine flat_map]. rewrite IH. unfold report at 1. rewrite Hm.
  reflexivity.
Qed.

Lemma logHarvestingResult_test_quiet CONFIG r h :
  TEST_MODE CONFIG = true ->
  Forall (fun ev => is_LogError ev = false)
         (fst (logHarvestingResult CONFIG r h)).
Proof.
  intros Hm. unfold logHarvestingResult. rewrite Hm, orb_true_r.
  destruct h as [h|]; simpl; repeat constructor.
Qed.

Lemma logHarvestingResults_test_quiet CONFIG rs hs :
  TEST_MODE CONFIG = true ->
  Forall (fun ev => is_LogError ev = false)
         (fst (logHarvestingResults CONFIG (rs, hs))).
Proof.
  intros Hm. unfold logHarvestingResults. generalize 0%nat.
  induction rs as [|r rs IH]; intros k; simpl; [constructor|].
  apply bind_trace; [apply logHarvestingResult_test_quiet; assumption|].
  intros _. apply IH.
Qed.

Lemma logHarvestingResults_trace (P : Event -> Prop) CONFIG rh :
  (forall l, P (Log l)) -> (forall l, P (LogError l)) ->
  Forall P (fst (logHarvestingResults CONFIG rh)).
Proof.
  intros HL HE. destruct rh as [rs hs]. unfold logHarvestingResults.
  generalize 0%nat.
  induction rs as [|r rs IH]; intros k; simpl; [constructor|].
  apply bind_trace; [|intros _; apply IH].
  unfold logHarvestingResult.
  destruct (nth_error hs k) as [h|];
    destruct (value_of r), (TEST_MODE CONFIG); simpl; repeat constructor;
    auto.
Qed.

Lemma costVsGain_trace (P : Event -> Prop) h :
  (forall l, P (Log l)) -> Forall P (fst (costVsGain h)).
Proof.
  intros HL. unfold costVsGain.
  destruct (gas h), (gasPrice h), (gainWAVAX h); simpl; repeat constructor;
    auto.
  unfold BN_div. destruct (_ =? 0); simpl; repeat constructor; auto.
Qed.

Lemma executeHarvestTx_trace (P : Event -> Prop) CONFIG web3 nonce h i :
  (forall l, P (Log l)) -> (forall t a g gp n, P (Send t a g gp n)) ->
  Forall P (fst (executeHarvestTx CONFIG web3 nonce h i)).
Proof.
  intros HL HS. unfold executeHarvestTx. destruct (TEST_MODE CONFIG); simpl.
  - repeat constructor; auto.
  - destruct (tx h) as [t|]; simpl; [|repeat constructor; auto].
    destruct (send web3 t (WALLET_ADDRESS CONFIG) (gas h) (gasPrice h)
                   (nonce + N.of_nat i)); simpl; repeat constructor; auto.
Qed.

Lemma doHarvesting_trace (P : Event -> Prop) CONFIG web3 hs :
  (forall q, P (Read q)) -> (forall l, P (Log l)) ->
  (forall t a g gp n, P (Send t a g gp n)) ->
  Forall P (fst (doHarvesting CONFIG web3 hs)).
Proof.
  intros HR HL HS. unfold doHarvesting.
  apply bind_trace; [repeat constructor; auto|]. intros nonce.
  apply bind_trace; [|intros; constructor].
  unfold promise_allSettled. cbn [fst]. apply concat_trace.
  apply mapi_from_trace. intros. apply executeHarvestTx_trace; assumption.
Qed.

Lemma doHarvesting_test_no_Send CONFIG web3 hs :
  TEST_MODE CONFIG = true ->
  Forall (fun ev => is_Send ev = false) (fst (doHarvesting CONFIG web3 hs)).
Proof.
  intros Hm.
  destruct (getTransactionCount web3 (WALLET_ADDRESS CONFIG)) as [base|e] eqn:Hn.
  - rewrite (doHarvesting_Ok _ _ _ _ Hn). cbn [fst].
    constructor; [reflexivity|]. apply concat_trace. unfold mapi.
    rewrite <- (map_mapi_from fst (executeHarvestTx CONFIG web3 base)).
    apply mapi_from_trace. intros h i.
    rewrite (executeHarvestTx_test _ _ _ _ _ Hm). repeat constructor.
  - rewrite (doHarvesting_Throw _ _ _ _ Hn). repeat constructor.
Qed.

(** *** What stages 1 to 4 can cause *)

Lemma mapStrategyToHarvestable_events CONFIG web3 c :
  Forall (fun ev => is_evaluation_event ev = true)
         (fst (mapStrategyToHarvestable CONFIG web3 c)).
Proof.
  unfold mapStrategyToHarvestable, call.
  destruct (call_getHarvestable web3 (_address c)); simpl;
    [|repeat constructor].
  destruct (call_performanceTreasuryFee web3 (_address c) 0%nat); simpl;
    [|repeat constructor].
  destruct (call_performanceTreasuryFee web3 (_address c) 1%nat); simpl;
    repeat constructor.
Qed.

Lemma convert_events web3 q :
  Forall (fun ev => is_evaluation_event ev = true)
         (fst (convertPNGToWavax web3 q)) /\
  Forall (fun ev => is_evaluation_event ev = true)
         (fst (convertPNGToUSDT web3 q)).
Proof.
  unfold convertPNGToWavax, convertPNGToUSDT, call. split.
  - destruct (call_getReserves web3 PANGOLIN_PNG_WAVAX_POOL_ADDRESS)
      as [[r0 r1]|]; simpl; repeat constructor.
  - destruct (call_getReserves web3 PANGOLIN_PNG_USDT_POOL_ADDRESS)
      as [[r0 r1]|]; simpl; repeat constructor.
Qed.

Lemma addHarvestGain_each_events web3 h :
  Forall (fun ev => is_evaluation_event ev = true)
         (fst (addHarvestGain_each web3 h)).
Proof.
  unfold addHarvestGain_each.
  apply bind_trace; [apply convert_events|]. intros gw.
  apply bind_trace; [apply convert_events|]. intros gu. constructor.
Qed.

Lemma addHarvestGas_each_events CONFIG web3 h :
  Forall (fun ev => is_evaluation_event ev = true)
         (fst (addHarvestGas_each CONFIG web3 h)).
Proof.
  unfold addHarvestGas_each.
  apply bind_trace; [destruct (tx h); constructor|]. intros t.
  apply bind_trace; [repeat constructor|]. intros g.
  apply bind_trace; [repeat constructor|]. intros gp. constructor.
Qed.

Lemma evaluation_events CONFIG web3 contracts :
  Forall (fun ev => is_evaluation_event ev = true)
         (fst (evaluation CONFIG web3 contracts)).
Proof.
  unfold evaluation.
  apply bind_trace.
  { apply stage_trace_inv; [apply mapStrategyToHarvestable_events|reflexivity]. }
  intros hs1. apply bind_trace.
  { apply stage_trace_inv; [intros; constructor|reflexivity]. }
  intros hs2. apply bind_trace.
  { apply stage_trace_inv; [apply addHarvestGain_each_events|reflexivity]. }
  intros hs3.
  apply stage_trace_inv; [apply addHarvestGas_each_events|reflexivity].
Qed.

Lemma evaluation_event_kinds ev :
  is_evaluation_event ev = true ->
  is_Send ev = false /\ is_txCountRead ev = false /\ is_timer ev = false /\
  (forall l, ev <> Log l).
Proof.
  destruct ev as [q| | | | |]; try discriminate;
    [destruct q; try discriminate|]; repeat split; discriminate.
Qed.

(** The promise chain of a cycle arms no timer. *)
Lemma pipeline_no_timer CONFIG web3 contracts :
  Forall (fun ev => is_timer ev = false)
         (fst (pipeline CONFIG web3 contracts)).
Proof.
  unfold pipeline. apply bind_trace.
  { eapply Forall_impl; [|apply evaluation_events].
    intros ev H. apply evaluation_event_kinds in H. tauto. }
  intros hs. apply bind_trace.
  { apply filterM_trace. intros h. apply costVsGain_trace. reflexivity. }
  intros kept. apply bind_trace.
  { apply doHarvesting_trace; reflexivity. }
  intros rh. apply logHarvestingResults_trace; reflexivity.
Qed.

(** With dry-run on, a whole cycle submits nothing. *)
Lemma loop_test_no_Send CONFIG web3 contracts :
  TEST_MODE CONFIG = true ->
  Forall (fun ev => is_Send ev = false) (fst (loop CONFIG web3 contracts)).
Proof.
  intros Hm. unfold loop. apply catch_trace; [|intros e; repeat constructor].
  unfold pipeline. apply bind_trace.
  { eapply Forall_impl; [|apply evaluation_events].
    intros ev H. apply evaluation_event_kinds in H. tauto. }
  intros hs. apply bind_trace.
  { apply filterM_trace. intros h. apply costVsGain_trace. reflexivity. }
  intros kept. apply bind_trace.
  { apply doHarvesting_test_no_Send. assumption. }
  intros rh. apply logHarvestingResults_trace; reflexivity.
Qed.

(** C7 (dry-run).  With dry-run on, no cycle and no batch causes a
    submission; once the transaction count is read every record settles
    as fulfilled without a value, and the reporter prints the success
    summary for every record of the batch and no error line. *)
Theorem dry_run_never_sends_and_reports_success
        (CONFIG : Config) (web3 : Web3) :
  TEST_MODE CONFIG = true ->
  (forall contracts, submissions (fst (loop CONFIG web3 contracts)) = []) /\
  (forall hs, submissions (fst (doHarvesting CONFIG web3 hs)) = []) /\
  (forall hs base,
     getTransactionCount web3 (WALLET_ADDRESS CONFIG) = Ok base ->
     snd (doHarvesting CONFIG web3 hs) =
       Ok (map (fun _ => Fulfilled None) hs, hs) /\
     logHarvestingResults CONFIG (map (fun _ => Fulfilled None) hs, hs) =
       (flat_map (fun h => success_lines CONFIG h None) hs, Ok tt)) /\
  (forall rs hs,
     Forall (fun ev => is_LogError ev = false)
            (fst (logHarvestingResults CONFIG (rs, hs)))).
Proof.
  intros Hm. split; [|split; [|split]].
  - intros contracts. apply filter_none. apply loop_test_no_Send. assumption.
  - intros hs. apply filter_none. apply doHarvesting_test_no_Send. assumption.
  - intros hs base Hn. split.
    + rewrite (doHarvesting_Ok _ _ _ _ Hn). cbn [snd]. unfold mapi.
      rewrite (mapi_from_ext _ (fun h _ => Fulfilled None));
        [rewrite (mapi_from_const (fun _ : Harvest => Fulfilled None)); reflexivity|].
      intros h i _. apply outcome_test. assumption.
    + rewrite logHarvestingResults_report by apply length_map.
      rewrite (report_test_all _ _ Hm). reflexivity.
  - intros rs hs. apply logHarvestingResults_test_quiet. assumption.
Qed.

(** *** A failed stage aborts the cycle *)

Lemma mapStrategyToHarvestable_fetch_fails CONFIG web3 c :
  (exists e, call_getHarvestable web3 (_address c) = Throw e \/
             call_performanceTreasuryFee web3 (_address c) 0%nat = Throw e \/
             call_performanceTreasuryFee web3 (_address c) 1%nat = Throw e) ->
  exists e', snd (mapStrategyToHarvestable CONFIG web3 c) = Throw e'.
Proof.
  intros (e & H). unfold mapStrategyToHarvestable, call.
  destruct (call_getHarvestable web3 (_address c)) as [q|e1];
    [|exists e1; reflexivity].
  destruct (call_performanceTreasuryFee web3 (_address c) 0%nat) as [f|e2];
    [|exists e2; reflexivity].
  destruct H as [H|[H|H]]; try discriminate.
  rewrite H. exists e. reflexivity.
Qed.

Lemma addHarvestGain_each_fetch_fails web3 h :
  (exists e, call_getReserves web3 PANGOLIN_PNG_WAVAX_POOL_ADDRESS = Throw e \/
             call_getReserves web3 PANGOLIN_PNG_USDT_POOL_ADDRESS = Throw e) ->
  exists e', snd (addHarvestGain_each web3 h) = Throw e'.
Proof.
  intros (e & H). unfold addHarvestGain_each.
  destruct (convertPNGToWavax web3 (harvestable h)) as [t1 [gw|e1]] eqn:Hw;
    [|exists e1; reflexivity].
  destruct H as [H|H].
  - unfold convertPNGToWavax, call in Hw. rewrite H in Hw. discriminate.
  - unfold convertPNGToUSDT, call. rewrite H. exists e. reflexivity.
Qed.

Lemma addHarvestGas_each_fetch_fails CONFIG web3 h t :
  tx h = Some t ->
  (exists e, estimateGas web3 t (WALLET_ADDRESS CONFIG) = Throw e \/
             getGasPrice web3 = Throw e) ->
  exists e', snd (addHarvestGas_each CONFIG web3 h) = Throw e'.
Proof.
  intros Ht (e & H). unfold addHarvestGas_each, call. rewrite Ht. simpl.
  destruct (estimateGas web3 t (WALLET_ADDRESS CONFIG)) as [g|e1];
    [|exists e1; reflexivity].
  destruct H as [H|H]; [discriminate|]. rewrite H. exists e. reflexivity.
Qed.

Lemma stage_rejects {A B} s (f : A -> M B) xs x :
  In x xs -> (exists e, snd (f x) = Throw e) ->
  exists t e',
    tagged s (promise_all (map f xs)) =
      (t ++ [LogError (E_stage (stage_message s))], Throw e').
Proof.
  intros Hin (e & He).
  destruct (stage_Throw s f xs x e Hin He) as (x' & e' & _ & _ & H).
  eexists. exists e'. exact H.
Qed.

Lemma rejects_at_evaluation CONFIG web3 contracts s t e :
  rejects_at CONFIG web3 contracts s t e ->
  evaluation CONFIG web3 contracts = (t, Throw e).
Proof.
  unfold evaluation. destruct s; simpl.
  - intros H. rewrite H. reflexivity.
  - intros (t1 & hs1 & t2 & H1 & H2 & ->).
    rewrite H1. cbn [bind]. rewrite H2. reflexivity.
  - intros (t1 & hs1 & t2 & hs2 & t3 & H1 & H2 & H3 & ->).
    rewrite H1. cbn [bind]. rewrite H2. cbn [bind]. rewrite H3. reflexivity.
  - intros (t1 & hs1 & t2 & hs2 & t3 & hs3 & t4 & H1 & H2 & H3 & H4 & ->).
    rewrite H1. cbn [bind]. rewrite H2. cbn [bind]. rewrite H3. cbn [bind].
    rewrite H4. reflexivity.
Qed.

Lemma evaluation_rejects_at CONFIG web3 contracts t e :
  evaluation CONFIG web3 contracts = (t, Throw e) ->
  exists s, rejects_at CONFIG web3 contracts s t e.
Proof.
  unfold evaluation.
  destruct (createHarvests CONFIG web3 contracts) as [t1 [hs1|e1]] eqn:H1;
    cbn [bind]; [|intros H; inversion H; subst; exists StageCreate; exact H1].
  destruct (addHarvestTx hs1) as [t2 [hs2|e2]] eqn:H2; cbn [bind];
    [|intros H; inversion H; subst; exists StageTx; simpl;
      exists t1, hs1, t2; auto].
  destruct (addHarvestGain web3 hs2) as [t3 [hs3|e3]] eqn:H3; cbn [bind];
    [|intros H; inversion H; subst; exists StageGain; simpl;
      exists t1, hs1, t2, hs2, t3; auto].
  destruct (addHarvestGas CONFIG web3 hs3) as [t4 [hs4|e4]] eqn:H4;
    [discriminate|].
  intros H; inversion H; subst. exists StageGas. simpl.
  exists t1, hs1, t2, hs2, t3, hs3, t4. auto 10.
Qed.

Lemma rejects_at_tagged CONFIG web3 contracts s t e :
  rejects_at CONFIG web3 contracts s t e ->
  exists t', t = t' ++ [LogError (E_stage (stage_message s))].
Proof.
  destruct s; simpl.
  - intros H. apply stage_Throw_inv in H. destruct H as [_ ->].
    eexists; reflexivity.
  - intros (t1 & hs1 & t2 & _ & H & ->).
    apply stage_Throw_inv in H. destruct H as [_ ->].
    exists (t1 ++ stage_trace addHarvestTx_each hs1).
    rewrite <- app_assoc. reflexivity.
  - intros (t1 & hs1 & t2 & hs2 & t3 & _ & _ & H & ->).
    apply stage_Throw_inv in H. destruct H as [_ ->].
    exists (t1 ++ t2 ++ stage_trace (addHarvestGain_each web3) hs2).
    rewrite <- !app_assoc. reflexivity.
  - intros (t1 & hs1 & t2 & hs2 & t3 & hs3 & t4 & _ & _ & _ & H & ->).
    apply stage_Throw_inv in H. destruct H as [_ ->].
    exists (t1 ++ t2 ++ t3 ++ stage_trace (addHarvestGas_each CONFIG web3) hs3).
    rewrite <- !app_assoc. reflexivity.
Qed.

Lemma pipeline_evaluation_Throw CONFIG web3 contracts t e :
  evaluation CONFIG web3 contracts = (t, Throw e) ->
  pipeline CONFIG web3 contracts = (t, Throw e).
Proof. intros H. unfold pipeline. rewrite H. reflexivity. Qed.

Lemma loop_pipeline_Throw CONFIG web3 contracts t e :
  pipeline CONFIG web3 contracts = (t, Throw e) ->
  loop CONFIG web3 contracts =
    (t ++ [LogError (E_error e); SetTimeoutExit 1000 1], Ok tt).
Proof. intros H. unfold loop. rewrite H. reflexivity. Qed.

Lemma loop_pipeline_Ok CONFIG web3 contracts t :
  pipeline CONFIG web3 contracts = (t, Ok tt) ->
  loop CONFIG web3 contracts = (t, Ok tt).
Proof. intros H. unfold loop. rewrite H. reflexivity. Qed.

(** C6 (fail-fast evaluation).  A fetch that fails for a single record
    makes its stage reject after the stage has printed its own message;
    and when one of stages 1 to 4 rejects, the promise chain rejects with
    that reason at that point: the cycle's trace is the trace up to the
    stage's message followed by the error handler's two effects, so it
    holds no filter line, no read of the transaction count and no
    submission. *)
Theorem failed_fetch_aborts_whole_cycle
        (CONFIG : Config) (web3 : Web3) (contracts : list StrategyTarget) :
  (forall c,
     In c (allStrategies contracts) ->
     (exists e, call_getHarvestable web3 (_address c) = Throw e \/
                call_performanceTreasuryFee web3 (_address c) 0%nat = Throw e \/
                call_performanceTreasuryFee web3 (_address c) 1%nat = Throw e) ->
     exists t e',
       createHarvests CONFIG web3 contracts =
         (t ++ [LogError (E_stage "Error fetching information from strategy")],
          Throw e')) /\
  (forall hs h,
     In h hs ->
     (exists e, call_getReserves web3 PANGOLIN_PNG_WAVAX_POOL_ADDRESS = Throw e \/
                call_getReserves web3 PANGOLIN_PNG_USDT_POOL_ADDRESS = Throw e) ->
     exists t e',
       addHarvestGain web3 hs =
         (t ++ [LogError (E_stage "Error adding harvest gain")], Throw e')) /\
  (forall hs h t0,
     In h hs -> tx h = Some t0 ->
     (exists e, estimateGas web3 t0 (WALLET_ADDRESS CONFIG) = Throw e \/
                getGasPrice web3 = Throw e) ->
     exists t e',
       addHarvestGas CONFIG web3 hs =
         (t ++ [LogError (E_stage "Error adding harvest gas")], Throw e')) /\
  (forall s t e,
     rejects_at CONFIG web3 contracts s t e ->
     (exists t', t = t' ++ [LogError (E_stage (stage_message s))]) /\
     evaluation CONFIG web3 contracts = (t, Throw e) /\
     pipeline CONFIG web3 contracts = (t, Throw e) /\
     loop CONFIG web3 contracts =
       (t ++ [LogError (E_error e); SetTimeoutExit 1000 1], Ok tt) /\
     submissions (fst (loop CONFIG web3 contracts)) = [] /\
     filter is_txCountRead (fst (loop CONFIG web3 contracts)) = [] /\
     (forall l, ~ In (Log l) (fst (loop CONFIG web3 contracts)))) /\
  (forall t e,
     evaluation CONFIG web3 contracts = (t, Throw e) ->
     exists s, rejects_at CONFIG web3 contracts s t e).
Proof.
  split; [|split; [|split; [|split]]].
  - intros c Hin Hf. apply (stage_rejects StageCreate _ _ c Hin).
    apply mapStrategyToHarvestable_fetch_fails. assumption.
  - intros hs h Hin Hf. apply (stage_rejects StageGain _ _ h Hin).
    apply addHarvestGain_each_fetch_fails. assumption.
  - intros hs h t0 Hin Ht Hf. apply (stage_rejects StageGas _ _ h Hin).
    apply (addHarvestGas_each_fetch_fails _ _ _ t0); assumption.
  - intros s t e Hr.
    pose proof (rejects_at_evaluation _ _ _ _ _ _ Hr) as He.
    pose proof (pipeline_evaluation_Throw _ _ _ _ _ He) as Hp.
    pose proof (loop_pipeline_Throw _ _ _ _ _ Hp) as Hl.
    assert (Hev : Forall (fun ev => is_evaluation_event ev = true) t).
    { pose proof (evaluation_events CONFIG web3 contracts) as H.
      rewrite He in H. exact H. }
    split; [eapply rejects_at_tagged; exact Hr|].
    split; [exact He|]. split; [exact Hp|]. split; [exact Hl|].
    rewrite Hl. cbn [fst]. split; [|split].
    + apply filter_none. apply Forall_app. split; [|repeat constructor].
      eapply Forall_impl; [|exact Hev].
      intros ev H. apply evaluation_event_kinds in H. tauto.
    + apply filter_none. apply Forall_app. split; [|repeat constructor].
      eapply Forall_impl; [|exact Hev].
      intros ev H. apply evaluation_event_kinds in H. tauto.
    + intros l Hin. apply in_app_or in Hin. destruct Hin as [Hin|Hin].
      * rewrite Forall_forall in Hev. specialize (Hev _ Hin).
        apply evaluation_event_kinds in Hev.
        destruct Hev as (_ & _ & _ & Hl'). apply (Hl' l). reflexivity.
      * destruct Hin as [H|[H|[]]]; discriminate.
  - intros t e H. apply evaluation_rejects_at. assumption.
Qed.

(** *** Failure of a cycle and of discovery *)

Lemma initContracts_from_events CONFIG web3 wants : forall cache,
  Forall (fun ev => is_registry_read ev = true)
         (fst (initContracts_from CONFIG web3 cache wants)).
Proof.
  induction wants as [|w wants IH]; intros cache; cbn [initContracts_from];
    [constructor|].
  apply bind_trace; [repeat constructor|]. intros g.
  apply bind_trace; [repeat constructor|]. intros s.
  match goal with
  | |- context [if ?b then _ else _] => destruct b
  end; apply IH.
Qed.

Lemma main_discovery_Throw CONFIG web3 t e :
  initContracts CONFIG web3 (WANTS CONFIG) = (t, Throw e) ->
  main CONFIG web3 = (t, Throw e).
Proof. intros H. unfold main. rewrite H. reflexivity. Qed.

Lemma timer_free_no_exit tr :
  Forall (fun ev => is_timer ev = false) tr -> keeps_running tr.
Proof.
  intros H ms code Hin. rewrite Forall_forall in H.
  specialize (H _ Hin). discriminate.
Qed.

(** C2, as the code has it.  A cycle whose promise chain rejects (a
    failure of stages 1 to 4 in particular) ends in [handleError]: the
    error is printed and [process.exit(1)] is armed 1000 ms later, so the
    failure does end the process; a cycle arms that exit only when its
    chain rejected.  When discovery rejects at startup nothing handles
    it: no cycle is run, nothing is printed and no timer is armed. *)
Theorem cycle_failure_logs_then_exits (CONFIG : Config) (web3 : Web3) :
  (forall contracts t e,
     evaluation CONFIG web3 contracts = (t, Throw e) ->
     loop CONFIG web3 contracts =
       (t ++ [LogError (E_error e); SetTimeoutExit 1000 1], Ok tt)) /\
  (forall contracts t e,
     pipeline CONFIG web3 contracts = (t, Throw e) ->
     loop CONFIG web3 contracts =
       (t ++ [LogError (E_error e); SetTimeoutExit 1000 1], Ok tt)) /\
  (forall contracts,
     ~ keeps_running (fst (loop CONFIG web3 contracts)) <->
     exists e, snd (pipeline CONFIG web3 contracts) = Throw e) /\
  (forall t e,
     initContracts CONFIG web3 (WANTS CONFIG) = (t, Throw e) ->
     main CONFIG web3 = (t, Throw e) /\
     Forall (fun ev => is_registry_read ev = true) t).
Proof.
  split; [|split; [|split]].
  - intros contracts t e H. apply loop_pipeline_Throw.
    apply pipeline_evaluation_Throw. assumption.
  - intros contracts t e H. apply loop_pipeline_Throw. assumption.
  - intros contracts.
    pose proof (pipeline_no_timer CONFIG web3 contracts) as Hnt.
    destruct (pipeline CONFIG web3 contracts) as [t [[]|e]] eqn:Hp.
    + rewrite (loop_pipeline_Ok _ _ _ _ Hp). cbn [fst snd] in *. split.
      * intros Hno. exfalso. apply Hno. apply timer_free_no_exit. exact Hnt.
      * intros (e & He). discriminate.
    + rewrite (loop_pipeline_Throw _ _ _ _ _ Hp). cbn [fst snd]. split.
      * intros _. exists e. reflexivity.
      * intros _ Hk. apply (Hk 1000 1). apply in_or_app. right.
        right. left. reflexivity.
  - intros t e H. split; [apply main_discovery_Throw; assumption|].
    pose proof (initContracts_from_events CONFIG web3 (WANTS CONFIG) []) as Hev.
    unfold initContracts in H. rewrite H in Hev. exact Hev.
Qed.

(** *** Further properties of the cycle *)

(** X1 (discovery is all-or-nothing).  A registry read that rejects for
    one tracked asset makes discovery reject as a whole, whatever was
    resolved before it; at startup the process then runs no cycle. *)
Theorem discovery_rejects_when_a_registry_read_rejects
        (CONFIG : Config) (web3 : Web3) (wants : list Address) (w : Address) :
  In w wants -> ~ resolves CONFIG web3 w ->
  exists t e,
    initContracts CONFIG web3 wants = (t, Throw e) /\
    (wants = WANTS CONFIG -> main CONFIG web3 = (t, Throw e)).
Proof.
  intros Hin Hno.
  destruct (initContracts_from_rejected CONFIG web3 wants [] w Hin Hno)
    as (t & e & H).
  exists t, e. split; [exact H|].
  intros ->. apply main_discovery_Throw. exact H.
Qed.

(** X2 (zero fee denominator).  When the records that reach the filter
    include one whose [treasuryMax] is zero, the filter throws the
    division error of bn.js, and the cycle ends in the error handler:
    nothing is submitted and the process exit is armed. *)
Theorem zero_fee_denominator_fails_the_cycle
        (CONFIG : Config) (web3 : Web3) (contracts : list StrategyTarget)
        (t : list Event) (hs : list Harvest) :
  evaluation CONFIG web3 contracts = (t, Ok hs) ->
  Exists (fun h => treasuryMax h = 0) hs ->
  exists t',
    filterHarvestByCostVsGain hs = (t', Throw DivisionByZero) /\
    loop CONFIG web3 contracts =
      ((t ++ t') ++ [LogError (E_error DivisionByZero); SetTimeoutExit 1000 1],
       Ok tt) /\
    submissions (fst (loop CONFIG web3 contracts)) = [].
Proof.
  intros He Hz.
  pose proof (evaluation_Ok _ _ _ _ _ He) as [_ Hb].
  assert (Hb' : Forall fullyBuilt hs).
  { eapply Forall_impl; [|exact Hb]. intros h [H _]. exact H. }
  destruct (filterHarvestByCostVsGain_zero_denominator hs Hb' Hz) as (t' & Hf).
  exists t'. split; [exact Hf|].
  assert (Hl : loop CONFIG web3 contracts =
      ((t ++ t') ++ [LogError (E_error DivisionByZero); SetTimeoutExit 1000 1],
       Ok tt)).
  { apply loop_pipeline_Throw. unfold pipeline.
    rewrite (bind_Ok _ _ _ _ He). cbv beta.
    rewrite (bind_Throw _ _ _ _ Hf). reflexivity. }
  split; [exact Hl|].
  rewrite Hl. cbn [fst]. apply filter_none.
  apply Forall_app. split; [|repeat constructor].
  apply Forall_app. split.
  - pose proof (evaluation_events CONFIG web3 contracts) as Hev.
    rewrite He in Hev. eapply Forall_impl; [|exact Hev].
    intros ev H. apply evaluation_event_kinds in H. tauto.
  - pose proof (filterM_trace (fun ev => is_Send ev = false) costVsGain hs
                  (fun h => costVsGain_trace _ h (fun _ => eq_refl))) as Hft.
    unfold filterHarvestByCostVsGain in Hf. rewrite Hf in Hft. exact Hft.
Qed.

(** The scenario of the spec's last testable property.  On the
    sample chain three tracked assets resolve to two targets, the second
    asset being skipped; the cycle evaluates both strategies, one passes
    the filter, one transaction is submitted with the wallet's
    transaction count as nonce, and the reporter prints one success
    summary and no error line. *)
Theorem end_to_end_on_the_sample_chain :
  snd (initContracts (sampleConfig false) (sampleWeb3 true)
                     (WANTS (sampleConfig false))) = Ok sampleContracts /\
  length (allStrategies sampleContracts) = 2%nat /\
  submissions (fst (loop (sampleConfig false) (sampleWeb3 true) sampleContracts)) =
    [ Send (HarvestCall (mkContract STRATEGY_ABI "0xStratA"))
           "0xWallet" (Some 50) (Some 3) 7 ] /\
  filter (fun ev => match ev with Log L_banner => true | _ => false end)
         (fst (loop (sampleConfig false) (sampleWeb3 true) sampleContracts)) =
    [Log L_banner] /\
  filter is_LogError
         (fst (loop (sampleConfig false) (sampleWeb3 true) sampleContracts)) = [] /\
  snd (loop (sampleConfig false) (sampleWeb3 true) sampleContracts) = Ok tt.
Proof. repeat split; vm_compute; reflexivity. Qed.

(** *** The properties on the sample chain *)

Lemma sampleBatch_fullyBuilt : Forall fullyBuilt sampleBatch.
Proof. repeat constructor; discriminate. Qed.

Lemma sampleBatch_denominators : Forall (fun h => treasuryMax h <> 0) sampleBatch.
Proof. repeat constructor; discriminate. Qed.

Lemma sampleBatch_has_tx : Forall (fun h => tx h <> None) sampleBatch.
Proof. repeat constructor; discriminate. Qed.

Lemma sample_wants_resolve :
  Forall (resolves (sampleConfig false) (sampleWeb3 true))
         (WANTS (sampleConfig false)).
Proof.
  repeat constructor; eexists; eexists; split; reflexivity.
Qed.

(** C4 on numbers: 7 tokens against reserves 2 and 3 are worth 10. *)
Lemma convert_floor_witness :
  exists r, convertViaPool 7 2 3 = Ok r /\ r = 7 * 3 / 2 /\
            r * 2 <= 7 * 3 < (r + 1) * 2.
Proof.
  apply (proj1 convert_floor_and_call_sites 7 2 3). discriminate.
Defined.

(** C1 on the sample batch: cost 150 against gain 200 is kept, cost 200
    against gain 200 is dropped. *)
Lemma filter_sample_witness :
  exists kept,
    filterHarvestByCostVsGain sampleBatch =
      (flat_map comparison_lines sampleBatch, Ok kept) /\
    kept = [sampleRecord "0xStratA" 1000 20 100 50 3].
Proof.
  destruct (filter_keeps_iff_cost_lt_gain_unless_a_denominator_is_zero
              sampleBatch sampleBatch_fullyBuilt) as [Hkeep _].
  destruct (Hkeep sampleBatch_denominators) as (kept & Hrun & Hkept & _).
  exists kept. split; [exact Hrun|]. rewrite Hkept. reflexivity.
Defined.

(** C1 as stated fails: on the chain where strategy A reports a fee of 20
    and strategy C a fee of zero, both records reach the filter fully
    built and the record of A has cost 150 below its treasury gain 2000,
    yet the filter throws and keeps no record. *)
Lemma zero_fee_in_batch_counterexample :
  exists t hs h,
    evaluation (sampleConfig false) mixedFeeWeb3 sampleContracts = (t, Ok hs) /\
    Forall fullyBuilt hs /\
    In h hs /\
    costInNative h < treasuryGainInNative h /\
    (exists tf, filterHarvestByCostVsGain hs = (tf, Throw DivisionByZero)) /\
    (forall kept, snd (filterHarvestByCostVsGain hs) <> Ok kept).
Proof.
  eexists. eexists. eexists.
  split; [vm_compute; reflexivity|].
  split; [repeat constructor; discriminate|].
  split; [left; reflexivity|].
  split; [vm_compute; reflexivity|].
  split; [eexists; vm_compute; reflexivity|].
  intros kept. vm_compute. discriminate.
Qed.

(** C3 on the sample batch: the second record, whose submission reverts,
    is submitted with nonce 7 + 1. *)
Lemma executor_sample_witness :
  exists tr results,
    doHarvesting (sampleConfig false) (sampleWeb3 true) sampleBatch =
      (tr, Ok (results, sampleBatch)) /\
    nth_error (submissions tr) 1 =
      Some (Send (HarvestCall (mkContract STRATEGY_ABI "0xStratC"))
                 "0xWallet" (Some 50) (Some 4) 8).
Proof.
  destruct (executor_reads_count_once_and_numbers_in_order
              (sampleConfig false) (sampleWeb3 true) sampleBatch 7 eq_refl)
    as (tr & results & Hrun & _ & _ & _ & Hsub & _).
  exists tr, results. split; [exact Hrun|].
  destruct (Hsub eq_refl sampleBatch_has_tx) as [_ Hnth].
  apply (Hnth 1%nat _ _ eq_refl eq_refl).
Defined.

(** C5 on the sample batch: the first submission is fulfilled, the second
    is rejected, and each is there at its own position. *)
Lemma settle_sample_witness :
  exists tr results,
    doHarvesting (sampleConfig false) (sampleWeb3 true) sampleBatch =
      (tr, Ok (results, sampleBatch)) /\
    nth_error results 0 =
      Some (Fulfilled (Some {| to := "0xStratA"; transactionHash := "0xabc" |})) /\
    nth_error results 1 = Some (Rejected (RpcError "reverted")) /\
    logHarvestingResults (sampleConfig false) (results, sampleBatch) =
      (flat_map (report (sampleConfig false)) (combine sampleBatch results),
       Ok tt).
Proof.
  destruct (submissions_settle_independently
              (sampleConfig false) (sampleWeb3 true) sampleBatch 7 eq_refl)
    as (tr & results & Hrun & _ & Hnth & _ & Hlog & _).
  exists tr, results. split; [exact Hrun|].
  split; [apply (Hnth 0%nat _ eq_refl)|].
  split; [apply (Hnth 1%nat _ eq_refl)|exact Hlog].
Defined.

(** C7 on the sample chain: a dry-run cycle submits nothing. *)
Lemma dry_run_sample_witness :
  submissions (fst (loop (sampleConfig true) (sampleWeb3 true) sampleContracts)) = [].
Proof.
  apply (proj1 (dry_run_never_sends_and_reports_success
                  (sampleConfig true) (sampleWeb3 true) eq_refl)).
Defined.

(** C8 on the sample chain: of three tracked assets the second has no
    well-formed vault address and is left out. *)
Lemma discovery_sample_witness :
  snd (initContracts (sampleConfig false) (sampleWeb3 true)
                     (WANTS (sampleConfig false))) = Ok sampleContracts.
Proof.
  rewrite (proj1 (discovery_accepts_valid_in_order
                    (sampleConfig false) (sampleWeb3 true) _
                    sample_wants_resolve)).
  reflexivity.
Defined.

(** C9 on the drafts of the sample chain, for the gain stage. *)
Lemma stages_sample_witness :
  exists t out,
    addHarvestGain (sampleWeb3 true) sampleDrafts = (t, Ok out) /\
    length out = length sampleDrafts /\
    Forall2 frame_gain sampleDrafts out /\
    Forall2 (fun i o => gainWAVAX i = None -> gainUSDT i = None -> retains i o)
            sampleDrafts out.
Proof.
  eexists. eexists. split; [vm_compute; reflexivity|].
  eapply (proj1 (proj2 (stages_keep_length_order_and_fields
                          (sampleConfig false) (sampleWeb3 true) sampleDrafts))).
  vm_compute. reflexivity.
Defined.

(** C10 on the sample chain, where both calls answer 20: the fee pair of
    every record is equal. *)
Lemma treasury_fee_sample_witness :
  exists t hs,
    createHarvests (sampleConfig false) (sampleWeb3 true) sampleContracts =
      (t, Ok hs) /\
    Forall (fun h => treasuryFee h = treasuryMax h) hs.
Proof.
  eexists. eexists. split; [vm_compute; reflexivity|].
  eapply Forall_impl;
    [|apply (proj1 (proj2 (treasury_fee_pair_is_two_calls_of_one_accessor
                             (sampleConfig false) (sampleWeb3 true)
                             sampleContracts))
              _ _ eq_refl)].
  intros h [_ H]. apply H. reflexivity.
Defined.

(** C10 as stated fails: on the chain whose fee changes from 20 to 30
    between the two calls, every record of candidate building has
    [treasuryFee = 20] and [treasuryMax = 30], and at the filter the
    treasury gain of every record differs from its native gain although
    the denominator is not zero. *)
Lemma fee_pair_differs_counterexample :
  exists t hs t' hs',
    createHarvests (sampleConfig false) driftingFeeWeb3 sampleContracts =
      (t, Ok hs) /\
    hs <> [] /\
    Forall (fun h => treasuryFee h = 20 /\ treasuryMax h = 30 /\
                     treasuryFee h <> treasuryMax h) hs /\
    evaluation (sampleConfig false) driftingFeeWeb3 sampleContracts =
      (t', Ok hs') /\
    Forall (fun h => treasuryMax h <> 0 /\
                     treasuryGainInNative h <> gainInNative h) hs'.
Proof.
  eexists. eexists. eexists. eexists.
  split; [vm_compute; reflexivity|].
  split; [discriminate|].
  split; [repeat constructor; discriminate|].
  split; [vm_compute; reflexivity|].
  repeat constructor; vm_compute; discriminate.
Qed.

(** C6 on the sample chain with the reward reads rejecting. *)
Lemma failed_fetch_sample_witness :
  loop (sampleConfig false) (sampleWeb3 false) sampleContracts =
    ([ Read (Q_getHarvestable "0xStratA");
       Read (Q_getHarvestable "0xStratC");
       LogError (E_stage "Error fetching information from strategy");
       LogError (E_error (RpcError "timeout"));
       SetTimeoutExit 1000 1 ], Ok tt) /\
  submissions (fst (loop (sampleConfig false) (sampleWeb3 false) sampleContracts)) = [].
Proof.
  destruct (failed_fetch_aborts_whole_cycle
              (sampleConfig false) (sampleWeb3 false) sampleContracts)
    as (_ & _ & _ & Habort & _).
  destruct (Habort StageCreate
              [ Read (Q_getHarvestable "0xStratA");
                Read (Q_getHarvestable "0xStratC");
                LogError (E_stage "Error fetching information from strategy") ]
              (RpcError "timeout") eq_refl)
    as (_ & _ & _ & Hloop & Hsub & _).
  split; [exact Hloop|exact Hsub].
Defined.

(** C2 as stated fails: on the sample chain with the reward reads
    rejecting, stage 1 fails and the cycle arms [process.exit(1)]. *)
Lemma stage_failure_exits_counterexample :
  snd (evaluation (sampleConfig false) (sampleWeb3 false) sampleContracts) =
    Throw (RpcError "timeout") /\
  In (SetTimeoutExit 1000 1)
     (fst (loop (sampleConfig false) (sampleWeb3 false) sampleContracts)) /\
  ~ keeps_running
      (fst (loop (sampleConfig false) (sampleWeb3 false) sampleContracts)).
Proof.
  split; [reflexivity|]. split.
  - vm_compute. auto 10.
  - intros Hk. apply (Hk 1000 1). vm_compute. auto 10.
Qed.

(** C2 as the code has it, on the same chain. *)
Lemma cycle_failure_sample_witness :
  loop (sampleConfig false) (sampleWeb3 false) sampleContracts =
    ([ Read (Q_getHarvestable "0xStratA");
       Read (Q_getHarvestable "0xStratC");
       LogError (E_stage "Error fetching information from strategy") ] ++
     [ LogError (E_error (RpcError "timeout")); SetTimeoutExit 1000 1 ],
     Ok tt).
Proof.
  apply (proj1 (cycle_failure_logs_then_exits
                  (sampleConfig false) (sampleWeb3 false))).
  reflexivity.
Defined.

(** X1 on the sample chain: an asset the registry does not know. *)
Lemma discovery_rejects_sample_witness :
  exists t e,
    initContracts (sampleConfig false) (sampleWeb3 true)
                  ["0xWantA"; "0xWantZ"; "0xWantC"]%string = (t, Throw e).
Proof.
  destruct (discovery_rejects_when_a_registry_read_rejects
              (sampleConfig false) (sampleWeb3 true)
              ["0xWantA"; "0xWantZ"; "0xWantC"]%string "0xWantZ"%string)
    as (t & e & H & _).
  - right. left. reflexivity.
  - intros (g & s & Hg & _). vm_compute in Hg. discriminate Hg.
  - exists t, e. exact H.
Defined.

(** X2 on the sample chain with a zero treasury fee. *)
Lemma zero_fee_sample_witness :
  exists t hs t',
    evaluation (sampleConfig false) zeroFeeWeb3 sampleContracts = (t, Ok hs) /\
    loop (sampleConfig false) zeroFeeWeb3 sampleContracts =
      ((t ++ t') ++ [LogError (E_error DivisionByZero); SetTimeoutExit 1000 1],
       Ok tt).
Proof.
  eexists. eexists.
  assert (He : evaluation (sampleConfig false) zeroFeeWeb3 sampleContracts =
               (_, Ok _)) by (vm_compute; reflexivity).
  destruct (zero_fee_denominator_fails_the_cycle
              (sampleConfig false) zeroFeeWeb3 sampleContracts _ _ He)
    as (t' & _ & Hl & _).
  - left. reflexivity.
  - exists t'. split; [exact He|exact Hl].
Defined.

(** *** What a resolved evaluation has read and built *)

Lemma Forall2_compose {A B C} (R : A -> B -> Prop) (S : B -> C -> Prop) xs ys zs :
  Forall2 R xs ys -> Forall2 S ys zs ->
  Forall2 (fun x z => exists y, R x y /\ S y z) xs zs.
Proof.
  intros H. revert zs. induction H as [|x y xs ys Hxy _ IH]; intros zs Hz.
  - inversion Hz. constructor.
  - inversion Hz; subst. constructor; [exists y; auto|apply IH; assumption].
Qed.

Lemma stage_trace_flat_map {A B C} (f : B -> M C) (g : A -> list Event) xs ys :
  Forall2 (fun x y => fst (f y) = g x) xs ys ->
  stage_trace f ys = flat_map g xs.
Proof.
  unfold stage_trace. induction 1 as [|x y xs ys Hxy _ IH]; [reflexivity|].
  cbn [map List.concat flat_map]. rewrite Hxy, IH. reflexivity.
Qed.

Lemma addHarvestTx_each_Ok h :
  addHarvestTx_each h =
    ([], Ok {| strategy := strategy h; name := name h;
               harvestable := harvestable h;
               treasuryFee := treasuryFee h; treasuryMax := treasuryMax h;
               tx := Some (HarvestCall (strategy h));
               gainWAVAX := gainWAVAX h; gainUSDT := gainUSDT h;
               gas := gas h; gasPrice := gasPrice h |}).
Proof. reflexivity. Qed.

Lemma convertPNGToWavax_Ok web3 q t v :
  convertPNGToWavax web3 q = (t, Ok v) ->
  t = [Read (Q_getReserves PANGOLIN_PNG_WAVAX_POOL_ADDRESS)].
Proof.
  unfold convertPNGToWavax, call.
  destruct (call_getReserves web3 PANGOLIN_PNG_WAVAX_POOL_ADDRESS)
    as [[r0 r1]|e]; simpl; [|discriminate].
  intros H. inversion H. reflexivity.
Qed.

Lemma convertPNGToUSDT_Ok web3 q t v :
  convertPNGToUSDT web3 q = (t, Ok v) ->
  t = [Read (Q_getReserves PANGOLIN_PNG_USDT_POOL_ADDRESS)].
Proof.
  unfold convertPNGToUSDT, call.
  destruct (call_getReserves web3 PANGOLIN_PNG_USDT_POOL_ADDRESS)
    as [[r0 r1]|e]; simpl; [|discriminate].
  intros H. inversion H. reflexivity.
Qed.

Lemma addHarvestGain_each_Ok web3 h t o :
  addHarvestGain_each web3 h = (t, Ok o) ->
  t = [ Read (Q_getReserves PANGOLIN_PNG_WAVAX_POOL_ADDRESS);
        Read (Q_getReserves PANGOLIN_PNG_USDT_POOL_ADDRESS) ] /\
  sameBase h o /\ tx o = tx h /\
  (exists gw, gainWAVAX o = Some gw /\
              snd (convertPNGToWavax web3 (harvestable h)) = Ok gw) /\
  (exists gu, gainUSDT o = Some gu /\
              snd (convertPNGToUSDT web3 (harvestable h)) = Ok gu).
Proof.
  unfold addHarvestGain_each. intros H.
  apply bind_inv_Ok in H. destruct H as (t1 & gw & t1' & Hw & H & ->).
  apply bind_inv_Ok in H. destruct H as (t2 & gu & t2' & Hu & H & ->).
  inversion H; subst. clear H.
  assert (Cw : snd (convertPNGToWavax web3 (harvestable h)) = Ok gw)
    by (rewrite Hw; reflexivity).
  assert (Cu : snd (convertPNGToUSDT web3 (harvestable h)) = Ok gu)
    by (rewrite Hu; reflexivity).
  rewrite (convertPNGToWavax_Ok _ _ _ _ Hw), (convertPNGToUSDT_Ok _ _ _ _ Hu).
  split; [reflexivity|]. unfold sameBase.
  split; [repeat split; reflexivity|]. split; [reflexivity|].
  split; [exists gw|exists gu]; split; solve [reflexivity|assumption].
Qed.

Lemma addHarvestGas_each_Ok CONFIG web3 h t o :
  addHarvestGas_each CONFIG web3 h = (t, Ok o) ->
  exists t0 g gp,
    tx h = Some t0 /\
    estimateGas web3 t0 (WALLET_ADDRESS CONFIG) = Ok g /\
    getGasPrice web3 = Ok gp /\
    t = [Read (Q_estimateGas t0 (WALLET_ADDRESS CONFIG)); Read Q_getGasPrice] /\
    sameBase h o /\ tx o = tx h /\
    gainWAVAX o = gainWAVAX h /\ gainUSDT o = gainUSDT h /\
    gas o = Some g /\ gasPrice o = Some gp.
Proof.
  unfold addHarvestGas_each, call.
  destruct (tx h) as [t0|] eqn:Ht; simpl; [|discriminate].
  destruct (estimateGas web3 t0 (WALLET_ADDRESS CONFIG)) as [g|e] eqn:Hg;
    simpl; [|discriminate].
  destruct (getGasPrice web3) as [gp|e] eqn:Hgp; simpl; [|discriminate].
  intros H. inversion H; subst. clear H.
  exists t0, g, gp. unfold sameBase. cbn.
  repeat split; solve [reflexivity|assumption|congruence].
Qed.

Lemma evaluation_inv CONFIG web3 contracts t hs4 :
  evaluation CONFIG web3 contracts = (t, Ok hs4) ->
  exists t1 hs1 t2 hs2 t3 hs3 t4,
    createHarvests CONFIG web3 contracts = (t1, Ok hs1) /\
    addHarvestTx hs1 = (t2, Ok hs2) /\
    addHarvestGain web3 hs2 = (t3, Ok hs3) /\
    addHarvestGas CONFIG web3 hs3 = (t4, Ok hs4) /\
    t = t1 ++ t2 ++ t3 ++ t4.
Proof.
  unfold evaluation. intros H.
  apply bind_inv_Ok in H. destruct H as (t1 & hs1 & t1' & H1 & H & ->).
  apply bind_inv_Ok in H. destruct H as (t2 & hs2 & t2' & H2 & H & ->).
  apply bind_inv_Ok in H. destruct H as (t3 & hs3 & t4 & H3 & H4 & ->).
  exists t1, hs1, t2, hs2, t3, hs3, t4. auto 10.
Qed.

Lemma mapStrategyToHarvestable_name CONFIG web3 c t h :
  mapStrategyToHarvestable CONFIG web3 c = (t, Ok h) ->
  name h = STRATEGY_NAME CONFIG (toLowerCase (_address c)).
Proof.
  unfold mapStrategyToHarvestable, call.
  destruct (call_getHarvestable web3 (_address c)); [|discriminate].
  destruct (call_performanceTreasuryFee web3 (_address c) 0%nat);
    [|discriminate].
  destruct (call_performanceTreasuryFee web3 (_address c) 1%nat);
    [|discriminate].
  simpl. intros H. inversion H. reflexivity.
Qed.

(** One strategy through the four items. *)
Lemma built_for_chain CONFIG web3 c h1 h2 h3 h4 :
  snd (mapStrategyToHarvestable CONFIG web3 c) = Ok h1 ->
  snd (addHarvestTx_each h1) = Ok h2 ->
  snd (addHarvestGain_each web3 h2) = Ok h3 ->
  snd (addHarvestGas_each CONFIG web3 h3) = Ok h4 ->
  built_for CONFIG web3 c h4 /\
  fst (mapStrategyToHarvestable CONFIG web3 c) = create_reads c /\
  fst (addHarvestTx_each h1) = [] /\
  fst (addHarvestGain_each web3 h2) = gain_reads c /\
  fst (addHarvestGas_each CONFIG web3 h3) = gas_reads CONFIG c.
Proof.
  intros H1 H2 H3 H4.
  destruct (mapStrategyToHarvestable CONFIG web3 c) as [t1 r1] eqn:E1.
  cbn [snd] in H1. subst r1.
  pose proof (mapStrategyToHarvestable_name _ _ _ _ _ E1) as Hname.
  apply mapStrategyToHarvestable_Ok in E1.
  destruct E1 as (-> & Hs & Hfee & Hd & Hh & Hf).
  rewrite addHarvestTx_each_Ok in H2. cbn [snd] in H2. injection H2 as E2.
  destruct (addHarvestGain_each web3 h2) as [t3 r3] eqn:E3.
  cbn [snd] in H3. subst r3.
  apply addHarvestGain_each_Ok in E3.
  destruct E3 as (-> & B3 & T3 & (gw & Hgw & Cw) & (gu & Hgu & Cu)).
  destruct (addHarvestGas_each CONFIG web3 h3) as [t4 r4] eqn:E4.
  cbn [snd] in H4. subst r4.
  apply addHarvestGas_each_Ok in E4.
  destruct E4 as (t0 & g & gp & T4 & Hg & Hgp & -> & B4 & T4' & W4 & U4 & G4 & P4).
  destruct B3 as (S3 & N3 & Q3 & F3 & M3).
  destruct B4 as (S4 & N4 & Q4 & F4 & M4).
  assert (Hs2 : strategy h2 = c) by (rewrite <- E2; cbn; exact Hs).
  assert (Ht2 : tx h2 = Some (HarvestCall c))
    by (rewrite <- E2; cbn; rewrite Hs; reflexivity).
  assert (Hq2 : harvestable h2 = harvestable h1) by (rewrite <- E2; reflexivity).
  assert (Hn2 : name h2 = name h1) by (rewrite <- E2; reflexivity).
  assert (Hf2 : treasuryFee h2 = treasuryFee h1) by (rewrite <- E2; reflexivity).
  assert (Hm2 : treasuryMax h2 = treasuryMax h1) by (rewrite <- E2; reflexivity).
  assert (Ht0 : t0 = HarvestCall c) by congruence. subst t0.
  destruct Hfee as [_ Hmax]. rewrite Hs in Hmax.
  split; [|repeat split; reflexivity].
  unfold built_for.
  split; [congruence|]. split; [congruence|].
  split; [rewrite Q4, Q3, Hq2; exact Hh|].
  split; [rewrite F4, F3, Hf2; exact Hf|].
  split; [rewrite M4, M3, Hm2; exact Hmax|]. split; [congruence|].
  split; [exists gw; split; [congruence|]; rewrite Q4, Q3; exact Cw|].
  split; [exists gu; split; [congruence|]; rewrite Q4, Q3; exact Cu|].
  split; [exists g; auto|exists gp; auto].
Qed.

Lemma stage_trace_cons {A B} (f : A -> M B) x xs :
  stage_trace f (x :: xs) = fst (f x) ++ stage_trace f xs.
Proof. reflexivity. Qed.

Lemma evaluation_chain CONFIG web3 cs : forall hs1 hs2 hs3 hs4,
  Forall2 (fun c h => snd (mapStrategyToHarvestable CONFIG web3 c) = Ok h) cs hs1 ->
  Forall2 (fun h o => snd (addHarvestTx_each h) = Ok o) hs1 hs2 ->
  Forall2 (fun h o => snd (addHarvestGain_each web3 h) = Ok o) hs2 hs3 ->
  Forall2 (fun h o => snd (addHarvestGas_each CONFIG web3 h) = Ok o) hs3 hs4 ->
  Forall2 (built_for CONFIG web3) cs hs4 /\
  stage_trace (mapStrategyToHarvestable CONFIG web3) cs = flat_map create_reads cs /\
  stage_trace addHarvestTx_each hs1 = [] /\
  stage_trace (addHarvestGain_each web3) hs2 = flat_map gain_reads cs /\
  stage_trace (addHarvestGas_each CONFIG web3) hs3 =
    flat_map (gas_reads CONFIG) cs.
Proof.
  induction cs as [|c cs IH]; intros hs1 hs2 hs3 hs4 F1 F2 F3 F4.
  - inversion F1; subst. inversion F2; subst. inversion F3; subst.
    inversion F4; subst. repeat split; constructor.
  - inversion F1 as [|? h1 ? hs1' H1 F1']; subst.
    inversion F2 as [|? h2 ? hs2' H2 F2']; subst.
    inversion F3 as [|? h3 ? hs3' H3 F3']; subst.
    inversion F4 as [|? h4 ? hs4' H4 F4']; subst.
    destruct (IH _ _ _ _ F1' F2' F3' F4') as (B & T1 & T2 & T3 & T4).
    destruct (built_for_chain _ _ _ _ _ _ _ H1 H2 H3 H4)
      as (B0 & E1 & E2 & E3 & E4).
    rewrite !stage_trace_cons, E1, E2, E3, E4, T1, T2, T3, T4.
    repeat split; try reflexivity. constructor; assumption.
Qed.

Lemma evaluation_Ok_built CONFIG web3 contracts t hs :
  evaluation CONFIG web3 contracts = (t, Ok hs) ->
  Forall2 (built_for CONFIG web3) (allStrategies contracts) hs /\
  t = flat_map create_reads (allStrategies contracts) ++
      flat_map gain_reads (allStrategies contracts) ++
      flat_map (gas_reads CONFIG) (allStrategies contracts).
Proof.
  intros H. apply evaluation_inv in H.
  destruct H as (t1 & hs1 & t2 & hs2 & t3 & hs3 & t4 & H1 & H2 & H3 & H4 & ->).
  apply stage_Ok in H1. destruct H1 as [F1 ->].
  apply stage_Ok in H2. destruct H2 as [F2 ->].
  apply stage_Ok in H3. destruct H3 as [F3 ->].
  apply stage_Ok in H4. destruct H4 as [F4 ->].
  destruct (evaluation_chain _ _ _ _ _ _ _ F1 F2 F3 F4)
    as (B & T1 & T2 & T3 & T4).
  split; [exact B|]. rewrite T1, T2, T3, T4. reflexivity.
Qed.

Lemma flat_map_length_const {A B} (g : A -> list B) k xs :
  (forall x, length (g x) = k) -> length (flat_map g xs) = (k * length xs)%nat.
Proof.
  intros Hg. induction xs as [|x xs IH]; simpl; [lia|].
  rewrite length_app, Hg, IH. lia.
Qed.

Lemma filter_flat_map {A B} (p : B -> bool) (g : A -> list B) xs :
  filter p (flat_map g xs) = flat_map (fun x => filter p (g x)) xs.
Proof.
  induction xs as [|x xs IH]; simpl; [reflexivity|].
  rewrite filter_app, IH. reflexivity.
Qed.

(** X3 (one record per strategy, bound to it).  When stages 1 to 4
    resolve, the records that reach the filter are, in the flattening
    order of discovery, one per strategy contract; each carries the
    pending reward and the fee its own strategy reported, the harvest
    call of its own strategy as transaction, the value of its own
    pending reward against each of the two pools, and the gas estimate
    of its own transaction sent from the operating wallet. *)
Theorem evaluation_builds_one_record_per_strategy
        (CONFIG : Config) (web3 : Web3) (contracts : list StrategyTarget)
        (t : list Event) (hs : list Harvest) :
  evaluation CONFIG web3 contracts = (t, Ok hs) ->
  length hs = length (allStrategies contracts) /\
  map strategy hs = allStrategies contracts /\
  Forall2 (built_for CONFIG web3) (allStrategies contracts) hs.
Proof.
  intros H. destruct (evaluation_Ok_built _ _ _ _ _ H) as [B _].
  split; [symmetry; apply (Forall2_length B)|]. split; [|exact B].
  clear H. induction B as [|c h cs hs' Hb _ IH]; [reflexivity|].
  simpl. rewrite IH. destruct Hb as (-> & _). reflexivity.
Qed.

(** X4 (the reads of an evaluation).  When stages 1 to 4 resolve for n
    strategies, the chain was read exactly 7 n times and nothing else
    was observed: per strategy the pending reward once and the treasury
    fee twice, then per record each pool's reserves once (never cached
    across records), then per record one gas estimate and one gas price
    (n gas-price reads, not one per cycle). *)
Theorem evaluation_reads_seven_times_per_strategy
        (CONFIG : Config) (web3 : Web3) (contracts : list StrategyTarget)
        (t : list Event) (hs : list Harvest) :
  evaluation CONFIG web3 contracts = (t, Ok hs) ->
  t = flat_map create_reads (allStrategies contracts) ++
      flat_map gain_reads (allStrategies contracts) ++
      flat_map (gas_reads CONFIG) (allStrategies contracts) /\
  length t = (7 * length (allStrategies contracts))%nat /\
  length (filter is_gasPriceRead t) = length (allStrategies contracts).
Proof.
  intros H. destruct (evaluation_Ok_built _ _ _ _ _ H) as [_ ->].
  split; [reflexivity|]. split.
  - rewrite !length_app.
    rewrite (flat_map_length_const create_reads 3) by reflexivity.
    rewrite (flat_map_length_const gain_reads 2) by reflexivity.
    rewrite (flat_map_length_const (gas_reads CONFIG) 2) by reflexivity.
    lia.
  - rewrite !filter_app, !filter_flat_map, !length_app.
    rewrite (flat_map_length_const
               (fun c => filter is_gasPriceRead (create_reads c)) 0)
      by reflexivity.
    rewrite (flat_map_length_const
               (fun c => filter is_gasPriceRead (gain_reads c)) 0)
      by reflexivity.
    rewrite (flat_map_length_const
               (fun c => filter is_gasPriceRead (gas_reads CONFIG c)) 1)
      by reflexivity.
    lia.
Qed.

(** *** When the filter resolves *)

Lemma costVsGain_filterable h :
  filterable h -> costVsGain h = (comparison_lines h, Ok (profitable h)).
Proof.
  intros (Hg & Hgp & Hgw & Hmax).
  unfold costVsGain, comparison_lines, profitable, costInNative,
    treasuryGainInNative.
  destruct (gas h) as [g|]; [|contradiction].
  destruct (gasPrice h) as [gp|]; [|contradiction].
  destruct (gainWAVAX h) as [gw|]; [|contradiction].
  unfold BN_div. destruct (N.eqb_spec (treasuryMax h) 0); [contradiction|].
  reflexivity.
Qed.

Lemma costVsGain_Ok_filterable h t b :
  costVsGain h = (t, Ok b) -> filterable h.
Proof.
  unfold costVsGain, filterable, BN_div.
  destruct (gas h) as [g|]; [|discriminate].
  destruct (gasPrice h) as [gp|]; [|discriminate].
  destruct (gainWAVAX h) as [gw|]; [|discriminate].
  destruct (N.eqb_spec (treasuryMax h) 0) as [Hz|Hnz]; [discriminate|].
  intros _. repeat split; solve [discriminate|assumption].
Qed.

Lemma filterHarvestByCostVsGain_filterable hs :
  Forall filterable hs ->
  filterHarvestByCostVsGain hs =
    (flat_map comparison_lines hs, Ok (filter profitable hs)).
Proof.
  unfold filterHarvestByCostVsGain.
  induction hs as [|h hs IH]; intros Hf; [reflexivity|].
  inversion Hf as [|? ? Hf1 Hf2]; subst.
  cbn [filterM flat_map filter].
  rewrite (bind_Ok _ _ _ _ (costVsGain_filterable h Hf1)).
  rewrite (bind_Ok _ _ _ _ (IH Hf2)).
  cbn [fst snd ret]. rewrite app_nil_r.
  destruct (profitable h); reflexivity.
Qed.

Lemma filterHarvestByCostVsGain_Ok_filterable hs : forall t kept,
  filterHarvestByCostVsGain hs = (t, Ok kept) -> Forall filterable hs.
Proof.
  unfold filterHarvestByCostVsGain.
  induction hs as [|h hs IH]; intros t kept H; [constructor|].
  cbn [filterM] in H.
  apply bind_inv_Ok in H. destruct H as (t1 & b & t2 & Hh & H & _).
  apply bind_inv_Ok in H. destruct H as (t3 & kept' & t4 & Hrest & _ & _).
  constructor; [eapply costVsGain_Ok_filterable; exact Hh|].
  eapply IH; exact Hrest.
Qed.

(** X5 (when the filter resolves).  The filter resolves exactly when
    every record has its gas, gas price and native gain and a non-zero
    [treasuryMax]; it then returns the profitable records unchanged and
    in input order.  Otherwise it throws; no other field of a record
    (transaction, stable gain, name) matters to it. *)
Theorem filter_resolves_iff_every_record_is_filterable (hs : list Harvest) :
  ((exists t kept, filterHarvestByCostVsGain hs = (t, Ok kept)) <->
   Forall filterable hs) /\
  ((exists t e, filterHarvestByCostVsGain hs = (t, Throw e)) <->
   ~ Forall filterable hs) /\
  (forall t kept,
     filterHarvestByCostVsGain hs = (t, Ok kept) ->
     t = flat_map comparison_lines hs /\ kept = filter profitable hs /\
     incl kept hs).
Proof.
  split; [|split].
  - split.
    + intros (t & kept & H). eapply filterHarvestByCostVsGain_Ok_filterable.
      exact H.
    + intros H. eexists. eexists.
      apply filterHarvestByCostVsGain_filterable. exact H.
  - split.
    + intros (t & e & H) Hf.
      rewrite (filterHarvestByCostVsGain_filterable hs Hf) in H. discriminate.
    + intros Hn.
      destruct (filterHarvestByCostVsGain hs) as [t [kept|e]] eqn:H.
      * exfalso. apply Hn.
        eapply filterHarvestByCostVsGain_Ok_filterable. exact H.
      * exists t, e. reflexivity.
  - intros t kept H.
    pose proof (filterHarvestByCostVsGain_Ok_filterable hs t kept H) as Hf.
    rewrite (filterHarvestByCostVsGain_filterable hs Hf) in H.
    inversion H; subst. split; [reflexivity|]. split; [reflexivity|].
    intros h Hin. apply filter_In in Hin. tauto.
Qed.

(** *** The four ways a cycle can go *)

Lemma loop_evaluation_Throw CONFIG web3 contracts t e :
  evaluation CONFIG web3 contracts = (t, Throw e) ->
  loop CONFIG web3 contracts = (t ++ handler_events e, Ok tt).
Proof.
  intros H. apply loop_pipeline_Throw. apply pipeline_evaluation_Throw.
  exact H.
Qed.

Lemma loop_filter_Throw CONFIG web3 contracts t hs tf e :
  evaluation CONFIG web3 contracts = (t, Ok hs) ->
  filterHarvestByCostVsGain hs = (tf, Throw e) ->
  loop CONFIG web3 contracts = ((t ++ tf) ++ handler_events e, Ok tt).
Proof.
  intros He Hf. apply loop_pipeline_Throw. unfold pipeline.
  rewrite (bind_Ok _ _ _ _ He). cbv beta.
  rewrite (bind_Throw _ _ _ _ Hf). reflexivity.
Qed.

Lemma loop_count_Throw CONFIG web3 contracts t hs tf kept e :
  evaluation CONFIG web3 contracts = (t, Ok hs) ->
  filterHarvestByCostVsGain hs = (tf, Ok kept) ->
  getTransactionCount web3 (WALLET_ADDRESS CONFIG) = Throw e ->
  loop CONFIG web3 contracts =
    ((t ++ tf ++ [Read (Q_getTransactionCount (WALLET_ADDRESS CONFIG))]) ++
     handler_events e, Ok tt).
Proof.
  intros He Hf Hn. apply loop_pipeline_Throw. unfold pipeline.
  rewrite (bind_Ok _ _ _ _ He). cbv beta.
  rewrite (bind_Ok _ _ _ _ Hf). cbv beta.
  rewrite (bind_Throw _ _ _ _ (doHarvesting_Throw _ _ kept _ Hn)).
  reflexivity.
Qed.

Lemma loop_resolved CONFIG web3 contracts t hs tf kept base :
  evaluation CONFIG web3 contracts = (t, Ok hs) ->
  filterHarvestByCostVsGain hs = (tf, Ok kept) ->
  getTransactionCount web3 (WALLET_ADDRESS CONFIG) = Ok base ->
  loop CONFIG web3 contracts =
    (t ++ tf ++
       (Read (Q_getTransactionCount (WALLET_ADDRESS CONFIG)) ::
          executor_trace CONFIG web3 base kept) ++
       flat_map (report CONFIG)
                (combine kept (mapi (outcome CONFIG web3 base) kept)),
     Ok tt).
Proof.
  intros He Hf Hn. apply loop_pipeline_Ok. unfold pipeline.
  rewrite (bind_Ok _ _ _ _ He). cbv beta.
  rewrite (bind_Ok _ _ _ _ Hf). cbv beta.
  rewrite (bind_Ok _ _ _ _ (doHarvesting_Ok _ _ kept _ Hn)). cbv beta.
  rewrite logHarvestingResults_report by apply mapi_from_length.
  reflexivity.
Qed.

Lemma loop_exit_iff_pipeline_Throw CONFIG web3 contracts :
  ~ keeps_running (fst (loop CONFIG web3 contracts)) <->
  exists e, snd (pipeline CONFIG web3 contracts) = Throw e.
Proof.
  pose proof (pipeline_no_timer CONFIG web3 contracts) as Hnt.
  destruct (pipeline CONFIG web3 contracts) as [t [[]|e]] eqn:Hp.
  - rewrite (loop_pipeline_Ok _ _ _ _ Hp). cbn [fst snd] in *. split.
    + intros Hno. exfalso. apply Hno. apply timer_free_no_exit. exact Hnt.
    + intros (e & He). discriminate.
  - rewrite (loop_pipeline_Throw _ _ _ _ _ Hp). cbn [fst snd]. split.
    + intros _. exists e. reflexivity.
    + intros _ Hk. apply (Hk 1000 1). apply in_or_app. right.
      right. left. reflexivity.
Qed.

Lemma fullyBuilt_nonzero_filterable h :
  fullyBuilt h -> treasuryMax h <> 0 -> filterable h.
Proof. intros (_ & Hgw & _ & Hg & Hgp) Hm. repeat split; assumption. Qed.

Lemma zero_or_all_nonzero (hs : list Harvest) :
  Exists (fun h => treasuryMax h = 0) hs \/
  Forall (fun h => treasuryMax h <> 0) hs.
Proof.
  induction hs as [|h hs [IH|IH]].
  - right. constructor.
  - left. right. exact IH.
  - destruct (N.eq_dec (treasuryMax h) 0) as [Hz|Hnz].
    + left. left. exact Hz.
    + right. constructor; assumption.
Qed.

(** X6 (what ends the process).  A cycle arms the process exit exactly
    when a stage of the evaluation rejected, or a record that reached
    the filter has a zero [treasuryMax], or the read of the transaction
    count rejected.  In particular no answer of a submission, and no
    outcome of the reporter, ever ends the process. *)
Theorem cycle_ends_process_iff
        (CONFIG : Config) (web3 : Web3) (contracts : list StrategyTarget) :
  ~ keeps_running (fst (loop CONFIG web3 contracts)) <->
  (exists e, snd (evaluation CONFIG web3 contracts) = Throw e) \/
  (exists t hs,
     evaluation CONFIG web3 contracts = (t, Ok hs) /\
     (Exists (fun h => treasuryMax h = 0) hs \/
      exists e, getTransactionCount web3 (WALLET_ADDRESS CONFIG) = Throw e)).
Proof.
  rewrite loop_exit_iff_pipeline_Throw.
  destruct (evaluation CONFIG web3 contracts) as [t [hs|e]] eqn:He.
  - pose proof (evaluation_Ok _ _ _ _ _ He) as [_ Hb].
    assert (Hb' : Forall fullyBuilt hs).
    { eapply Forall_impl; [|exact Hb]. intros h [H _]. exact H. }
    destruct (zero_or_all_nonzero hs) as [Hz|Hnz].
    + split; [|intros _].
      * intros _. right. exists t, hs. auto.
      * destruct (filterHarvestByCostVsGain_zero_denominator hs Hb' Hz)
          as (tf & Hf).
        exists DivisionByZero. unfold pipeline.
        rewrite (bind_Ok _ _ _ _ He). cbv beta.
        rewrite (bind_Throw _ _ _ _ Hf). reflexivity.
    + assert (Hf : filterHarvestByCostVsGain hs =
                   (flat_map comparison_lines hs, Ok (filter profitable hs)))
        by (apply filterHarvestByCostVsGain_fullyBuilt; assumption).
      destruct (getTransactionCount web3 (WALLET_ADDRESS CONFIG))
        as [base|e] eqn:Hn.
      * assert (Hp : snd (pipeline CONFIG web3 contracts) = Ok tt).
        { unfold pipeline.
          rewrite (bind_Ok _ _ _ _ He). cbv beta.
          rewrite (bind_Ok _ _ _ _ Hf). cbv beta.
          rewrite (bind_Ok _ _ _ _ (doHarvesting_Ok _ _ _ _ Hn)). cbv beta.
          rewrite logHarvestingResults_report by apply mapi_from_length.
          reflexivity. }
        split.
        -- intros (e & Hthrow). rewrite Hp in Hthrow. discriminate.
        -- intros [(e & Hthrow)|(t' & hs' & Heq & [Hz|(e & Hthrow)])].
           ++ discriminate.
           ++ inversion Heq; subst. exfalso.
              rewrite Forall_forall in Hnz. apply Exists_exists in Hz.
              destruct Hz as (h & Hin & Hz). apply (Hnz h Hin Hz).
           ++ discriminate.
      * split; [|intros _].
        -- intros _. right. exists t, hs. split; [reflexivity|].
           right. exists e. reflexivity.
        -- exists e. unfold pipeline.
           rewrite (bind_Ok _ _ _ _ He). cbv beta.
           rewrite (bind_Ok _ _ _ _ Hf). cbv beta.
           rewrite (bind_Throw _ _ _ _ (doHarvesting_Throw _ _ _ _ Hn)).
           reflexivity.
  - split; [|intros _].
    + intros _. left. exists e. reflexivity.
    + exists e. unfold pipeline. rewrite He. reflexivity.
Qed.

(** *** What a live cycle submits, and what a dry-run shows *)

Lemma evaluation_Ok_tx CONFIG web3 contracts t hs :
  evaluation CONFIG web3 contracts = (t, Ok hs) ->
  Forall (fun h => tx h = Some (HarvestCall (strategy h))) hs.
Proof.
  intros H. destruct (evaluation_Ok_built _ _ _ _ _ H) as [B _].
  eapply Forall2_Forall_r; [|exact B].
  intros c h (Hs & _ & _ & _ & _ & Ht & _). rewrite Hs. exact Ht.
Qed.

Lemma Forall_filter {A} (P : A -> Prop) (p : A -> bool) xs :
  Forall P xs -> Forall P (filter p xs).
Proof.
  intros H. apply Forall_forall. intros x Hin. apply filter_In in Hin.
  rewrite Forall_forall in H. apply H. tauto.
Qed.

Lemma executor_trace_live_submissions CONFIG web3 base kept :
  TEST_MODE CONFIG = false ->
  Forall (fun h => tx h = Some (HarvestCall (strategy h))) kept ->
  submissions (executor_trace CONFIG web3 base kept) =
    mapi (submission CONFIG base) kept.
Proof.
  intros Hm Htx. unfold executor_trace, mapi.
  rewrite (submissions_live _ _ _ _ _ Hm).
  rewrite (mapi_from_ext _ (fun h i => [submission CONFIG base h i])).
  - apply concat_mapi_singleton.
  - intros h i Hin. rewrite Forall_forall in Htx. rewrite (Htx h Hin).
    reflexivity.
Qed.

Lemma costVsGain_lines h :
  Forall (fun ev => is_comparison_line ev = true) (fst (costVsGain h)).
Proof.
  unfold costVsGain.
  destruct (gas h), (gasPrice h), (gainWAVAX h); simpl; repeat constructor.
  unfold BN_div. destruct (_ =? 0); simpl; repeat constructor.
Qed.

Lemma filter_lines hs :
  Forall (fun ev => is_comparison_line ev = true)
         (fst (filterHarvestByCostVsGain hs)).
Proof. apply filterM_trace. apply costVsGain_lines. Qed.

Lemma report_lines CONFIG (pairs : list (Harvest * Settled)) :
  Forall (fun ev => is_report_line ev = true) (flat_map (report CONFIG) pairs).
Proof.
  induction pairs as [|[h r] pairs IH]; [constructor|].
  cbn [flat_map]. apply Forall_app. split; [|exact IH].
  unfold report, success_lines, failure_lines.
  destruct r as [[v|]|e]; destruct (TEST_MODE CONFIG); repeat constructor.
Qed.

(** X7 (what a live cycle submits).  With dry-run off, when the
    evaluation resolves with non-zero fee denominators and the
    transaction count [base] is read, the submissions of the whole cycle
    are exactly the profitable records, in discovery order, each as the
    harvest call of its own strategy with its own gas estimate and gas
    price, numbered [base], [base + 1], ... *)
Theorem live_cycle_submits_the_profitable_in_order
        (CONFIG : Config) (web3 : Web3) (contracts : list StrategyTarget)
        (t : list Event) (hs : list Harvest) (base : N) :
  TEST_MODE CONFIG = false ->
  evaluation CONFIG web3 contracts = (t, Ok hs) ->
  Forall (fun h => treasuryMax h <> 0) hs ->
  getTransactionCount web3 (WALLET_ADDRESS CONFIG) = Ok base ->
  submissions (fst (loop CONFIG web3 contracts)) =
    mapi (submission CONFIG base) (filter profitable hs).
Proof.
  intros Hm He Hnz Hn.
  pose proof (evaluation_Ok _ _ _ _ _ He) as [_ Hb].
  assert (Hb' : Forall fullyBuilt hs).
  { eapply Forall_impl; [|exact Hb]. intros h [H _]. exact H. }
  pose proof (filterHarvestByCostVsGain_fullyBuilt hs Hb' Hnz) as Hf.
  rewrite (loop_resolved _ _ _ _ _ _ _ _ He Hf Hn). cbn [fst].
  unfold submissions. rewrite !filter_app.
  rewrite (filter_none is_Send t).
  2:{ pose proof (evaluation_events CONFIG web3 contracts) as Hev.
      rewrite He in Hev. eapply Forall_impl; [|exact Hev].
      intros ev H. apply evaluation_event_kinds in H. tauto. }
  rewrite (filter_none is_Send (flat_map comparison_lines hs)).
  2:{ pose proof (filter_lines hs) as Hl. rewrite Hf in Hl.
      eapply Forall_impl; [|exact Hl].
      intros ev H. destruct ev as [| |[]| | |]; try discriminate; reflexivity. }
  rewrite (filter_none is_Send (flat_map _ _)).
  2:{ eapply Forall_impl; [|apply report_lines].
      intros ev H.
      destruct ev as [| |[]|[]| |]; try discriminate; reflexivity. }
  cbn [filter is_Send app]. rewrite app_nil_r.
  apply (executor_trace_live_submissions _ _ _ _ Hm).
  apply Forall_filter. eapply evaluation_Ok_tx. exact He.
Qed.

Lemma silent_trace tr :
  Forall silent tr -> previews tr = [] /\ sent_to tr = [].
Proof.
  induction 1 as [|ev tr [Hp Hs] _ [IHp IHs]]; [split; reflexivity|].
  unfold previews, sent_to in *. cbn [flat_map] in *.
  rewrite app_nil_r in Hp, Hs. rewrite Hp, Hs, IHp, IHs. split; reflexivity.
Qed.

Lemma evaluation_event_silent ev : is_evaluation_event ev = true -> silent ev.
Proof.
  destruct ev as [q| |l|l| |]; try discriminate; intros _; split; reflexivity.
Qed.

Lemma comparison_line_silent ev : is_comparison_line ev = true -> silent ev.
Proof.
  destruct ev as [| |[]| | |]; try discriminate; intros _; split; reflexivity.
Qed.

Lemma report_line_silent ev : is_report_line ev = true -> silent ev.
Proof.
  destruct ev as [| |[]|[]| |]; try discriminate; intros _; split; reflexivity.
Qed.

Lemma handler_events_silent e : Forall silent (handler_events e).
Proof. repeat constructor. Qed.

Lemma previews_app a b : previews (a ++ b) = previews a ++ previews b.
Proof. apply flat_map_app. Qed.

Lemma sent_to_app a b : sent_to (a ++ b) = sent_to a ++ sent_to b.
Proof. apply flat_map_app. Qed.

Lemma executor_trace_test CONFIG web3 base kept :
  TEST_MODE CONFIG = true ->
  executor_trace CONFIG web3 base kept =
    map (fun h => Log (L_wouldHarvest (_address (strategy h)))) kept.
Proof.
  intros Hm. unfold executor_trace, mapi.
  rewrite (mapi_from_ext _
             (fun h _ => [Log (L_wouldHarvest (_address (strategy h)))])).
  - rewrite (concat_mapi_singleton
               (fun h (_ : nat) => Log (L_wouldHarvest (_address (strategy h))))).
    apply mapi_from_const.
  - intros h i _. rewrite (executeHarvestTx_test _ _ _ _ _ Hm). reflexivity.
Qed.

Lemma previews_would_harvest kept :
  previews (map (fun h => Log (L_wouldHarvest (_address (strategy h)))) kept) =
  map (fun h => _address (strategy h)) kept.
Proof.
  induction kept as [|h kept IH]; [reflexivity|].
  unfold previews in *. cbn [map flat_map]. rewrite IH. reflexivity.
Qed.

Lemma sent_to_executor_live CONFIG web3 base kept : forall k,
  TEST_MODE CONFIG = false ->
  Forall (fun h => tx h = Some (HarvestCall (strategy h))) kept ->
  sent_to (List.concat
             (mapi_from k (fun h i => fst (executeHarvestTx CONFIG web3 base h i))
                        kept)) =
  map (fun h => _address (strategy h)) kept.
Proof.
  induction kept as [|h kept IH]; intros k Hm Htx; [reflexivity|].
  inversion Htx as [|? ? Ht Hrest]; subst.
  cbn [mapi_from List.concat map].
  rewrite sent_to_app, (IH (S k) Hm Hrest).
  rewrite (executeHarvestTx_live _ _ _ _ _ _ Hm Ht). reflexivity.
Qed.

Lemma filter_Ok_kept_tx hs tf kept :
  Forall (fun h => tx h = Some (HarvestCall (strategy h))) hs ->
  filterHarvestByCostVsGain hs = (tf, Ok kept) ->
  Forall (fun h => tx h = Some (HarvestCall (strategy h))) kept.
Proof.
  intros Htx Hf.
  pose proof (filterHarvestByCostVsGain_Ok_filterable hs tf kept Hf) as Hfl.
  rewrite (filterHarvestByCostVsGain_filterable hs Hfl) in Hf.
  inversion Hf; subst. apply Forall_filter. exact Htx.
Qed.

(** X8 (a dry-run shows what a live run would submit).  For the same
    chain and the same configuration but for the dry-run flag, the
    strategies a dry-run cycle says it would have harvested are, in
    order, exactly the contracts a live cycle submits transactions to;
    both are empty when the cycle fails before the executor. *)
Theorem dry_run_previews_what_live_submits
        (CONFIG : Config) (web3 : Web3) (contracts : list StrategyTarget) :
  previews (fst (loop (withTestMode true CONFIG) web3 contracts)) =
  sent_to (fst (loop (withTestMode false CONFIG) web3 contracts)).
Proof.
  destruct (evaluation (withTestMode false CONFIG) web3 contracts)
    as [t [hs|e]] eqn:He.
  2:{ assert (He' : evaluation (withTestMode true CONFIG) web3 contracts =
                    (t, Throw e)) by exact He.
      rewrite (loop_evaluation_Throw _ _ _ _ _ He),
              (loop_evaluation_Throw _ _ _ _ _ He'). cbn [fst].
      assert (Hq : Forall silent (t ++ handler_events e)).
      { apply Forall_app. split; [|apply handler_events_silent].
        pose proof (evaluation_events (withTestMode false CONFIG) web3 contracts)
          as Hev.
        rewrite He in Hev. eapply Forall_impl; [|exact Hev].
        apply evaluation_event_silent. }
      destruct (silent_trace _ Hq) as [-> ->]. reflexivity. }
  assert (He' : evaluation (withTestMode true CONFIG) web3 contracts =
                (t, Ok hs)) by exact He.
  assert (Qt : Forall silent t).
  { pose proof (evaluation_events (withTestMode false CONFIG) web3 contracts)
      as Hev.
    rewrite He in Hev. eapply Forall_impl; [|exact Hev].
    apply evaluation_event_silent. }
  destruct (filterHarvestByCostVsGain hs) as [tf [kept|e]] eqn:Hf.
  2:{ rewrite (loop_filter_Throw _ _ _ _ _ _ _ He Hf),
              (loop_filter_Throw _ _ _ _ _ _ _ He' Hf). cbn [fst].
      assert (Hq : Forall silent ((t ++ tf) ++ handler_events e)).
      { apply Forall_app. split; [|apply handler_events_silent].
        apply Forall_app. split; [exact Qt|].
        pose proof (filter_lines hs) as Hl. rewrite Hf in Hl.
        eapply Forall_impl; [|exact Hl]. apply comparison_line_silent. }
      destruct (silent_trace _ Hq) as [-> ->]. reflexivity. }
  assert (Qf : Forall silent tf).
  { pose proof (filter_lines hs) as Hl. rewrite Hf in Hl.
    eapply Forall_impl; [|exact Hl]. apply comparison_line_silent. }
  destruct (getTransactionCount web3 (WALLET_ADDRESS CONFIG))
    as [base|e] eqn:Hn.
  2:{ rewrite (loop_count_Throw (withTestMode false CONFIG) _ _ _ _ _ _ _ He Hf Hn),
              (loop_count_Throw (withTestMode true CONFIG) _ _ _ _ _ _ _ He' Hf Hn).
      cbn [fst].
      assert (Hq : Forall silent
                (( t ++ tf ++
                   [Read (Q_getTransactionCount (WALLET_ADDRESS CONFIG))]) ++
                 handler_events e)).
      { apply Forall_app. split; [|apply handler_events_silent].
        apply Forall_app. split; [exact Qt|].
        apply Forall_app. split; [exact Qf|]. repeat constructor. }
      destruct (silent_trace _ Hq) as [Hp Hs].
      cbn [WALLET_ADDRESS withTestMode]. rewrite Hp, Hs. reflexivity. }
  rewrite (loop_resolved (withTestMode false CONFIG) _ _ _ _ _ _ _ He Hf Hn),
          (loop_resolved (withTestMode true CONFIG) _ _ _ _ _ _ _ He' Hf Hn).
  cbn [fst].
  destruct (silent_trace _ Qt) as [Pt St].
  destruct (silent_trace _ Qf) as [Pf Sf].
  rewrite !previews_app, !sent_to_app, Pt, Pf, St, Sf. cbn [app].
  assert (Rq : forall cfg pairs, Forall silent (flat_map (report cfg) pairs)).
  { intros cfg pairs. eapply Forall_impl; [|apply report_lines].
    apply report_line_silent. }
  destruct (silent_trace _ (Rq (withTestMode true CONFIG)
              (combine kept (mapi (outcome (withTestMode true CONFIG) web3 base) kept))))
    as [-> _].
  destruct (silent_trace _ (Rq (withTestMode false CONFIG)
              (combine kept (mapi (outcome (withTestMode false CONFIG) web3 base) kept))))
    as [_ ->].
  rewrite !app_nil_r.
  change (previews (?a :: ?l)) with (previews l).
  change (sent_to (Read ?q :: ?l)) with (sent_to l).
  rewrite (executor_trace_test (withTestMode true CONFIG) web3 base kept eq_refl).
  rewrite previews_would_harvest.
  unfold executor_trace, mapi.
  rewrite (sent_to_executor_live (withTestMode false CONFIG) web3 base kept 0%nat
             eq_refl); [reflexivity|].
  eapply filter_Ok_kept_tx; [|exact Hf].
  eapply evaluation_Ok_tx. exact He.
Qed.

(** *** Edges: nothing to harvest, and results without records *)

(** X9 (nothing discovered).  When discovery found no strategy, a cycle
    reads the transaction count and does nothing else: no evaluation
    read, no console line, no submission.  It still ends the process if
    that one read rejects. *)
Theorem empty_cycle_only_reads_the_transaction_count
        (CONFIG : Config) (web3 : Web3) (contracts : list StrategyTarget) :
  allStrategies contracts = [] ->
  (forall base,
     getTransactionCount web3 (WALLET_ADDRESS CONFIG) = Ok base ->
     loop CONFIG web3 contracts =
       ([Read (Q_getTransactionCount (WALLET_ADDRESS CONFIG))], Ok tt)) /\
  (forall e,
     getTransactionCount web3 (WALLET_ADDRESS CONFIG) = Throw e ->
     loop CONFIG web3 contracts =
       ([ Read (Q_getTransactionCount (WALLET_ADDRESS CONFIG));
          LogError (E_error e); SetTimeoutExit 1000 1 ], Ok tt)).
Proof.
  intros Hnone.
  assert (He : evaluation CONFIG web3 contracts = ([], Ok [])).
  { unfold evaluation, createHarvests. rewrite Hnone. reflexivity. }
  assert (Hf : filterHarvestByCostVsGain [] = ([], Ok [])) by reflexivity.
  split.
  - intros base Hn. rewrite (loop_resolved _ _ _ _ _ _ _ _ He Hf Hn).
    reflexivity.
  - intros e Hn. rewrite (loop_count_Throw _ _ _ _ _ _ _ _ He Hf Hn).
    reflexivity.
Qed.

Lemma logHarvestingResults_from_short CONFIG rs : forall pre hs,
  (length rs <= length hs)%nat ->
  logHarvestingResults_from CONFIG (length pre) rs (pre ++ hs) =
    (flat_map (report CONFIG) (combine hs rs), Ok tt).
Proof.
  induction rs as [|r rs IH]; intros pre hs Hlen.
  - destruct hs; reflexivity.
  - destruct hs as [|h hs]; [simpl in Hlen; lia|].
    cbn [logHarvestingResults_from combine flat_map].
    rewrite nth_error_app2 by apply Nat.le_refl.
    rewrite Nat.sub_diag. cbn [nth_error].
    rewrite (bind_Ok _ _ _ _ (logHarvestingResult_report CONFIG r h)).
    replace (pre ++ h :: hs) with ((pre ++ [h]) ++ hs)
      by (rewrite <- app_assoc; reflexivity).
    replace (S (length pre)) with (length (pre ++ [h]))
      by (rewrite length_app; simpl; apply Nat.add_1_r).
    rewrite IH by (simpl in Hlen; lia). reflexivity.
Qed.

Lemma logHarvestingResult_undefined CONFIG r :
  snd (logHarvestingResult CONFIG r None) = Throw (TypeError "harvest").
Proof.
  unfold logHarvestingResult.
  destruct (value_of r), (TEST_MODE CONFIG); reflexivity.
Qed.

Lemma logHarvestingResults_from_long CONFIG rs : forall pre hs,
  (length hs < length rs)%nat ->
  snd (logHarvestingResults_from CONFIG (length pre) rs (pre ++ hs)) =
    Throw (TypeError "harvest").
Proof.
  induction rs as [|r rs IH]; intros pre hs Hlen; [simpl in Hlen; lia|].
  cbn [logHarvestingResults_from].
  destruct hs as [|h hs].
  - rewrite app_nil_r.
    assert (Hnone : nth_error pre (length pre) = None)
      by (apply nth_error_None; apply Nat.le_refl).
    rewrite Hnone.
    pose proof (logHarvestingResult_undefined CONFIG r) as Hu.
    destruct (logHarvestingResult CONFIG r None) as [t res].
    cbn [snd] in Hu. subst res. reflexivity.
  - rewrite nth_error_app2 by apply Nat.le_refl.
    rewrite Nat.sub_diag. cbn [nth_error].
    rewrite (bind_Ok _ _ _ _ (logHarvestingResult_report CONFIG r h)).
    cbn [snd].
    replace (pre ++ h :: hs) with ((pre ++ [h]) ++ hs)
      by (rewrite <- app_assoc; reflexivity).
    replace (S (length pre)) with (length (pre ++ [h]))
      by (rewrite length_app; simpl; apply Nat.add_1_r).
    apply IH. simpl in Hlen. lia.
Qed.

(** X10 (the reporter follows the results).  The reporter prints one
    summary per settled result, for the record at the same position: with
    no more results than records it resolves, having reported the first
    records only; with more results than records it throws a TypeError
    at the first result that has no record.  It prints nothing for an
    empty list of results. *)
Theorem reporter_walks_the_results
        (CONFIG : Config) (rs : list Settled) (hs : list Harvest) :
  ((length rs <= length hs)%nat ->
   logHarvestingResults CONFIG (rs, hs) =
     (flat_map (report CONFIG) (combine (firstn (length rs) hs) rs), Ok tt)) /\
  ((length hs < length rs)%nat ->
   snd (logHarvestingResults CONFIG (rs, hs)) = Throw (TypeError "harvest")) /\
  (rs = [] -> logHarvestingResults CONFIG (rs, hs) = ([], Ok tt)).
Proof.
  split; [|split].
  - intros Hlen. unfold logHarvestingResults.
    pose proof (logHarvestingResults_from_short CONFIG rs [] hs Hlen) as H0.
    cbn [length app] in H0. rewrite H0.
    f_equal. f_equal. clear Hlen H0. revert hs.
    induction rs as [|r rs IH]; intros hs; [destruct hs; reflexivity|].
    destruct hs as [|h hs]; [reflexivity|]. simpl. rewrite IH. reflexivity.
  - intros Hlen. unfold logHarvestingResults.
    apply (logHarvestingResults_from_long CONFIG rs [] hs Hlen).
  - intros ->. reflexivity.
Qed.

(** *** The shape of what discovery returns *)

Lemma initContracts_from_Ok_resolves CONFIG web3 wants : forall cache t r,
  initContracts_from CONFIG web3 cache wants = (t, Ok r) ->
  Forall (resolves CONFIG web3) wants.
Proof.
  induction wants as [|w wants IH]; intros cache t r H; [constructor|].
  cbn [initContracts_from] in H. unfold call in H.
  destruct (call_globes web3 (CONTROLLER CONFIG) w) as [g|e] eqn:Hg;
    [|discriminate].
  destruct (call_strategies web3 (CONTROLLER CONFIG) w) as [s|e] eqn:Hs;
    [|discriminate].
  constructor; [exists g, s; auto|].
  cbn [bind] in H.
  match type of H with
  | context [if ?b then _ else _] => destruct b
  end.
  - destruct (initContracts_from CONFIG web3 cache wants) as [t' [r'|e]] eqn:Hr;
      [|discriminate].
    eapply IH. exact Hr.
  - match type of H with
    | context [initContracts_from CONFIG web3 ?c wants] =>
        destruct (initContracts_from CONFIG web3 c wants) as [t' [r'|e]] eqn:Hr;
          [|discriminate]
    end.
    eapply IH. exact Hr.
Qed.

Lemma fold_left_app_concat {A} (ls : list (list A)) : forall acc,
  fold_left (fun output l => output ++ l) ls acc = acc ++ List.concat ls.
Proof.
  induction ls as [|l ls IH]; intros acc; simpl.
  - rewrite app_nil_r. reflexivity.
  - rewrite IH, <- app_assoc. reflexivity.
Qed.

Lemma allStrategies_flat_map contracts :
  allStrategies contracts = flat_map strategies contracts.
Proof.
  unfold allStrategies. rewrite fold_left_app_concat. cbn [app].
  symmetry. apply flat_map_concat_map.
Qed.

Lemma accepted_shape CONFIG web3 w :
  (length (accepted CONFIG web3 w) <= 1)%nat /\
  Forall (one_vault_one_strategy web3) (accepted CONFIG web3 w).
Proof.
  unfold accepted.
  destruct (call_globes web3 (CONTROLLER CONFIG) w) as [g|];
    [|split; [simpl; lia|constructor]].
  destruct (call_strategies web3 (CONTROLLER CONFIG) w) as [s|];
    [|split; [simpl; lia|constructor]].
  destruct (isAddress web3 g) eqn:Vg; [|split; [simpl; lia|constructor]].
  destruct (isAddress web3 s) eqn:Vs; [|split; [simpl; lia|constructor]].
  split; [simpl; lia|]. constructor; [|constructor].
  exists g, s. auto.
Qed.

(** X11 (what discovery returns).  When discovery resolves it has made
    exactly two registry reads per tracked asset, in order, and every
    target it returns holds exactly one vault contract and one strategy
    contract, both at well-formed addresses; so there are at most as
    many targets as tracked assets, and a cycle builds exactly one
    harvest record per target.  The flattening of the targets'
    strategies is their concatenation in order. *)
Theorem discovery_returns_single_strategy_targets
        (CONFIG : Config) (web3 : Web3) (wants : list Address)
        (t : list Event) (targets : list StrategyTarget) :
  initContracts CONFIG web3 wants = (t, Ok targets) ->
  t = flat_map (registry_reads CONFIG) wants /\
  length t = (2 * length wants)%nat /\
  (length targets <= length wants)%nat /\
  Forall (one_vault_one_strategy web3) targets /\
  allStrategies targets = flat_map strategies targets /\
  length (allStrategies targets) = length targets.
Proof.
  intros H. unfold initContracts in H.
  pose proof (initContracts_from_Ok_resolves _ _ _ _ _ _ H) as Hres.
  rewrite (initContracts_from_resolved CONFIG web3 wants [] Hres) in H.
  inversion H; subst. clear H. cbn [app].
  split; [reflexivity|].
  split; [apply flat_map_length_const; reflexivity|].
  assert (Hshape : Forall (one_vault_one_strategy web3)
                          (flat_map (accepted CONFIG web3) wants)).
  { clear Hres. induction wants as [|w wants IH]; [constructor|].
    cbn [flat_map]. apply Forall_app. split; [apply accepted_shape|exact IH]. }
  split.
  { clear Hres Hshape. induction wants as [|w wants IH]; [simpl; lia|].
    cbn [flat_map]. rewrite length_app.
    pose proof (proj1 (accepted_shape CONFIG web3 w)). simpl. lia. }
  split; [exact Hshape|].
  split; [apply allStrategies_flat_map|].
  rewrite allStrategies_flat_map.
  induction Hshape as [|tg tgs (g & s & _ & _ & _ & Hs) _ IH]; [reflexivity|].
  cbn [flat_map]. rewrite length_app, Hs, IH. reflexivity.
Qed.

(** *** A cycle never rejects *)

Lemma loop_resolves CONFIG web3 contracts :
  snd (loop CONFIG web3 contracts) = Ok tt.
Proof.
  unfold loop. destruct (pipeline CONFIG web3 contracts) as [t [[]|e]];
    reflexivity.
Qed.

(** X12 (no unhandled rejection in a cycle).  Whatever fails inside a
    cycle is caught by its error handler, so [loop] always resolves;
    and once discovery has resolved, startup runs one cycle on the
    discovered targets and then arms the interval timer with the
    configured period, whether or not that first cycle failed. *)
Theorem cycle_never_rejects_and_startup_arms_the_timer
        (CONFIG : Config) (web3 : Web3) :
  (forall contracts, snd (loop CONFIG web3 contracts) = Ok tt) /\
  (forall t contracts,
     initContracts CONFIG web3 (WANTS CONFIG) = (t, Ok contracts) ->
     main CONFIG web3 =
       (t ++ fst (loop CONFIG web3 contracts) ++
          [SetIntervalLoop (INTERVAL CONFIG)], Ok tt)).
Proof.
  split; [apply loop_resolves|].
  intros t contracts H. unfold main.
  rewrite (bind_Ok _ _ _ _ H). cbv beta.
  pose proof (loop_resolves CONFIG web3 contracts) as Hl.
  destruct (loop CONFIG web3 contracts) as [tl r]. cbn [snd] in Hl. subst r.
  reflexivity.
Qed.

(** *** The further properties on the sample chain *)

Lemma sample_evaluation_resolves :
  exists t hs,
    evaluation (sampleConfig false) (sampleWeb3 true) sampleContracts = (t, Ok hs).
Proof. eexists. eexists. vm_compute. reflexivity. Defined.

(** X3 on the sample chain. *)
Lemma one_record_per_strategy_sample_witness :
  exists t hs,
    evaluation (sampleConfig false) (sampleWeb3 true) sampleContracts = (t, Ok hs) /\
    map strategy hs = allStrategies sampleContracts.
Proof.
  destruct sample_evaluation_resolves as (t & hs & H).
  exists t, hs. split; [exact H|].
  apply (evaluation_builds_one_record_per_strategy _ _ _ _ _ H).
Defined.

(** X4 on the sample chain: two strategies, fourteen reads. *)
Lemma seven_reads_sample_witness :
  exists t hs,
    evaluation (sampleConfig false) (sampleWeb3 true) sampleContracts = (t, Ok hs) /\
    length t = 14%nat.
Proof.
  destruct sample_evaluation_resolves as (t & hs & H).
  exists t, hs. split; [exact H|].
  apply (evaluation_reads_seven_times_per_strategy _ _ _ _ _ H).
Defined.

(** X7 on the sample chain: of the two strategies only A is profitable,
    and it is submitted with the wallet's transaction count as nonce. *)
Lemma live_cycle_sample_witness :
  submissions (fst (loop (sampleConfig false) (sampleWeb3 true) sampleContracts)) =
    [ Send (HarvestCall (mkContract STRATEGY_ABI "0xStratA"))
           "0xWallet" (Some 50) (Some 3) 7 ].
Proof.
  assert (He : evaluation (sampleConfig false) (sampleWeb3 true) sampleContracts =
               (_, Ok _)) by (vm_compute; reflexivity).
  rewrite (live_cycle_submits_the_profitable_in_order
             (sampleConfig false) (sampleWeb3 true) sampleContracts _ _ 7
             eq_refl He).
  - reflexivity.
  - repeat constructor; discriminate.
  - reflexivity.
Defined.

(** X9 with no target at all. *)
Lemma empty_cycle_sample_witness :
  loop (sampleConfig false) (sampleWeb3 true) [] =
    ([Read (Q_getTransactionCount "0xWallet")], Ok tt).
Proof.
  apply (proj1 (empty_cycle_only_reads_the_transaction_count
                  (sampleConfig false) (sampleWeb3 true) [] eq_refl) 7).
  reflexivity.
Defined.

(** X11 on the sample chain: three assets, six reads, two targets. *)
Lemma single_strategy_targets_sample_witness :
  exists t targets,
    initContracts (sampleConfig false) (sampleWeb3 true)
                  (WANTS (sampleConfig false)) = (t, Ok targets) /\
    length t = 6%nat /\ length (allStrategies targets) = length targets.
Proof.
  eexists. eexists. split; [vm_compute; reflexivity|].
  destruct (discovery_returns_single_strategy_targets
              (sampleConfig false) (sampleWeb3 true)
              (WANTS (sampleConfig false)) _ _ eq_refl)
    as (_ & Hlen & _ & _ & _ & Hone).
  split; [exact Hlen|exact Hone].
Defined.
